(** * project_todo: the request pipeline and router of the todo HTTP API

    A shallow embedding of the Go program (package [main], the handlers
    [fetchTodos], [createTodo], [deleteTodo], [updateTodo], the route table
    [todoHandlers] and the bootstrap in [main]) together with the parts of
    its collaborators that the handlers observe: the document collection,
    the response writer, the logger that can panic or exit, the struct
    validator and the identifier parser.

    Handlers are written in a small state-and-exit monad over a [world]
    that holds the collection, the responses written so far and the storage
    calls issued so far.  What the program cannot decide by itself (whether
    the backend fails, the clock, the fresh identifier) is read from an
    [env] record. *)

From Stdlib Require Import ZArith NArith Ascii String List Bool Lia.
From stdpp Require Import base option gmap strings list fin_maps.

Local Open Scope string_scope.
Local Open Scope Z_scope.

(** ** Go values used by the handlers *)

(** Go's [error] values are observed only through their message. *)
Abbreviation error := string.

(** [primitive.ObjectID] is a [[12]byte]; it is kept as the big-endian number
    of these bytes. *)
Abbreviation ObjectID := N.

(** [time.Time] as nanoseconds since the Unix epoch.  The zero [time.Time]
    is January 1 of year 1, 00:00 UTC. *)
Abbreviation Time := Z.

Definition zeroTime : Time := -62135596800 * 1000000000.

Definition Time_IsZero (t : Time) : bool := t =? zeroTime.

(** The first instant of the year 0 and the first instant after the year
    9999 (UTC). *)
Definition year0_start : Time := -62167219200 * 1000000000.

Definition year10000_start : Time := 253402300800 * 1000000000.

(** [t, _ = time.Parse(time.RFC3339, t.Format(time.RFC3339))].  RFC3339 has
    no fraction of a second, so the round trip keeps the whole seconds.
    [Format] writes a year outside 0..9999 with a sign or a fifth digit,
    which [Parse] refuses; the program drops the error and keeps the value
    [Parse] returns with it, the zero time.  The year is read in UTC and the
    zone offset is a whole number of minutes. *)
Definition rfc3339_roundtrip (t : Time) : Time :=
  if (year0_start <=? t) && (t <? year10000_start) then t - t mod 1000000000
  else zeroTime.

(** ** strings.TrimSpace

    Go trims every leading and trailing Unicode white space rune of the
    UTF-8 string.  [spaceRune s] is [Some rest] when [s] starts with the
    encoding of such a rune. *)

Definition byte_is (c : ascii) (n : N) : bool := (N_of_ascii c =? n)%N.

Definition byte_in (c : ascii) (lo hi : N) : bool :=
  ((lo <=? N_of_ascii c) && (N_of_ascii c <=? hi))%N.

Definition spaceRune (s : string) : option string :=
  match s with
  | String c1 r1 =>
      if byte_in c1 9 13 || byte_is c1 32 then Some r1
      else match r1 with
      | String c2 r2 =>
          if byte_is c1 194 && (byte_is c2 133 || byte_is c2 160) then Some r2
          else match r2 with
          | String c3 r3 =>
              if byte_is c1 225 && byte_is c2 154 && byte_is c3 128 then Some r3
              else if byte_is c1 226 && byte_is c2 128
                      && (byte_in c3 128 138 || byte_in c3 168 169 || byte_is c3 175)
                   then Some r3
              else if byte_is c1 226 && byte_is c2 129 && byte_is c3 159 then Some r3
              else if byte_is c1 227 && byte_is c2 128 && byte_is c3 128 then Some r3
              else None
          | EmptyString => None
          end
      | EmptyString => None
      end
  | EmptyString => None
  end.

(** Every call of [spaceRune] is on a string of at most [fuel] bytes. *)
Fixpoint trimLeftFuel (fuel : nat) (s : string) : string :=
  match fuel with
  | O => s
  | S fuel' =>
      match spaceRune s with
      | Some rest => trimLeftFuel fuel' rest
      | None => s
      end
  end.

Definition trimLeft (s : string) : string := trimLeftFuel (String.length s) s.

Fixpoint allSpaceFuel (fuel : nat) (s : string) : bool :=
  match s with
  | EmptyString => true
  | _ =>
      match fuel with
      | O => false
      | S fuel' =>
          match spaceRune s with
          | Some rest => allSpaceFuel fuel' rest
          | None => false
          end
      end
  end.

Definition allSpace (s : string) : bool := allSpaceFuel (String.length s) s.

Fixpoint trimRight (s : string) : string :=
  match s with
  | EmptyString => EmptyString
  | String c s' => if allSpace s then EmptyString else String c (trimRight s')
  end.

Definition TrimSpace (s : string) : string := trimRight (trimLeft s).

(** ** primitive.ObjectIDFromHex

    The string must have exactly 24 bytes, each a hexadecimal digit of
    either case. *)

Definition ErrInvalidHex : error := "the provided hex string is not a valid ObjectID".

Definition fromHexChar (c : ascii) : option N :=
  if byte_in c 48 57 then Some (N_of_ascii c - 48)%N
  else if byte_in c 97 102 then Some (N_of_ascii c - 97 + 10)%N
  else if byte_in c 65 70 then Some (N_of_ascii c - 65 + 10)%N
  else None.

Fixpoint hex_Decode (s : string) (acc : N) : option N :=
  match s with
  | EmptyString => Some acc
  | String c s' =>
      match fromHexChar c with
      | Some d => hex_Decode s' (acc * 16 + d)%N
      | None => None
      end
  end.

Definition ObjectIDFromHex (s : string) : ObjectID + error :=
  if (String.length s =? 24)%nat then
    match hex_Decode s 0%N with
    | Some oid => inl oid
    | None => inr "encoding/hex: invalid byte"
    end
  else inr ErrInvalidHex.

(** [ObjectID.Hex]: 24 lower-case hexadecimal digits. *)

Definition hexDigit (d : N) : ascii :=
  if (d <? 10)%N then ascii_of_N (48 + d) else ascii_of_N (97 + d - 10).

Fixpoint hex_Encode (digits : nat) (n : N) (acc : string) : string :=
  match digits with
  | O => acc
  | S k => hex_Encode k (n / 16)%N (String (hexDigit (n mod 16)%N) acc)
  end.

Definition Hex (oid : ObjectID) : string := hex_Encode 24 oid EmptyString.


(** ** The data model

    [todoModel] is the persisted form, [todo] the wire form (the [type]
    block of the program).  The [validate:"required"] tags are on
    [IsCompleted] and [CreatedAt] of [todoModel]; [todo] has [json] tags
    only.  The two structs have the same field names; the projections of
    [todoModel] carry the prefix [M_]. *)

Record todoModel := TodoModel {
  M_ID : ObjectID;
  M_Title : string;
  M_IsCompleted : bool;
  M_CreatedAt : Time;
  M_UpdatedAt : Time
}.

Record todo := Todo {
  ID : string;
  Title : string;
  IsCompleted : bool;
  CreatedAt : Time;
  UpdatedAt : Time
}.

(** [var t todo]: every field has its zero value. *)
Definition zero_todo : todo :=
  {| ID := ""; Title := ""; IsCompleted := false;
     CreatedAt := zeroTime; UpdatedAt := zeroTime |}.

(** *** Struct validation ([validator.New().Struct])

    The validator walks the fields of the struct it is given and checks
    each field against its own [validate] tag.  A field is described by its
    name, its tag and whether its value is the zero value of its type;
    [required] fails on a zero value. *)

Record field := Field {
  fname : string;
  validate_tag : string;
  is_zero : bool
}.

Definition todoModel_fields (m : todoModel) : list field :=
  [ Field "ID" "" (M_ID m =? 0)%N;
    Field "Title" "" (String.eqb (M_Title m) "");
    Field "IsCompleted" "required" (negb (M_IsCompleted m));
    Field "CreatedAt" "required" (Time_IsZero (M_CreatedAt m));
    Field "UpdatedAt" "" (Time_IsZero (M_UpdatedAt m)) ].

Definition todo_fields (t : todo) : list field :=
  [ Field "ID" "" (String.eqb (ID t) "");
    Field "Title" "" (String.eqb (Title t) "");
    Field "IsCompleted" "" (negb (IsCompleted t));
    Field "CreatedAt" "" (Time_IsZero (CreatedAt t));
    Field "UpdatedAt" "" (Time_IsZero (UpdatedAt t)) ].

Definition field_fails (f : field) : bool :=
  String.eqb (validate_tag f) "required" && is_zero f.

Definition validate_Struct (fs : list field) : option error :=
  match List.filter field_fails fs with
  | [] => None
  | f :: _ =>
      Some ("Field validation for '" ++ fname f ++ "' failed on the 'required' tag")
  end.

(** *** Documents

    A stored document maps BSON keys to values; the collection maps the
    [_id] of a document to its other elements, which is the unique index
    the store keeps on [_id]. *)

Inductive bson :=
| BString (s : string)
| BBool (b : bool)
| BDateTime (ms : Z).

#[global] Instance bson_eq_dec : EqDecision bson.
Proof. solve_decision. Defined.

Abbreviation document := (gmap string bson).
Abbreviation collection := (gmap N (gmap string bson)).

(** BSON date-times are milliseconds since the Unix epoch. *)
Definition NewDateTimeFromTime (t : Time) : Z := t / 1000000.

Definition DateTime_Time (ms : Z) : Time := ms * 1000000.

(** Marshalling of a [todoModel] for [InsertOne].  Only [ID] has a [bson]
    tag ([_id]); the driver names every other element by the lower-cased
    field name, and does not read [json] tags. *)
Definition marshal_todoModel (m : todoModel) : document :=
  <[ "title" := BString (M_Title m) ]>
  (<[ "iscompleted" := BBool (M_IsCompleted m) ]>
  (<[ "createdat" := BDateTime (NewDateTimeFromTime (M_CreatedAt m)) ]>
  (<[ "updatedat" := BDateTime (NewDateTimeFromTime (M_UpdatedAt m)) ]> ∅))).

(** Decoding of a document into a [todoModel] ([Cursor.All]): an absent
    element leaves the zero value, an element of another type is an error,
    elements with other keys are skipped.

    This is the driver's decoding on the documents the handlers store: keys
    in lower case and times as date-times.  The driver also takes a key
    that differs from a field's key in letter case only, in the order of
    the elements (which a map does not keep), and reads a string under a
    time as an RFC3339 time; on documents with such elements the functions
    below are not the driver's, and the properties of list are stated for
    documents without them ([handler_shaped], [mistyped]). *)
Definition decode_string (d : document) (k : string) : option string :=
  match d !! k with
  | None => Some ""
  | Some (BString s) => Some s
  | Some _ => None
  end.

Definition decode_bool (d : document) (k : string) : option bool :=
  match d !! k with
  | None => Some false
  | Some (BBool b) => Some b
  | Some _ => None
  end.

Definition decode_time (d : document) (k : string) : option Time :=
  match d !! k with
  | None => Some zeroTime
  | Some (BDateTime ms) => Some (DateTime_Time ms)
  | Some _ => None
  end.

Definition unmarshal_todoModel (oid : ObjectID) (d : document) : option todoModel :=
  match decode_string d "title", decode_bool d "iscompleted",
        decode_time d "createdat", decode_time d "updatedat" with
  | Some t, Some c, Some ca, Some ua => Some (TodoModel oid t c ca ua)
  | _, _, _, _ => None
  end.

(** ** Responses, storage calls and the world *)

Record UpdateResult := MkUpdateResult {
  MatchedCount : Z;
  ModifiedCount : Z;
  UpsertedCount : Z;
  UpsertedID : option ObjectID
}.

(** Values placed in a [renderer.M]. *)
Inductive jval :=
| JString (s : string)
| JError (e : error)
| JTodos (l : list todo)
| JInsertResult (insertedID : ObjectID)
| JUpdateResult (r : UpdateResult)
| JDeleteResult (deletedCount : Z).

(** The value handed to the renderer: a [renderer.M] (in the order the
    source writes its keys), a bare [error], or a rendered template. *)
Inductive payload :=
| PMap (kv : list (string * jval))
| PErr (e : error)
| PTemplate (files : list string)
| PText (s : string).

Record response := Response {
  status : Z;
  body : payload
}.

Definition StatusOK : Z := 200.
Definition StatusCreated : Z := 201.
Definition StatusBadRequest : Z := 400.
Definition StatusNotFound : Z := 404.
Definition StatusMethodNotAllowed : Z := 405.
Definition StatusInternalServerError : Z := 500.

(** One entry per call on the collection handle, whether it fails or not. *)
Inductive call :=
| CFind
| CInsertOne (oid : ObjectID) (d : gmap string bson)
| CUpdateOne (oid : ObjectID) (set : list (string * bson)) (upsert : bool)
| CDeleteOne (oid : ObjectID).

Record world := World {
  coll : gmap N (gmap string bson);
  written : list response;
  calls : list call;
  logged : list string
}.

(** What a request reads from outside the program: whether each backend
    operation fails, whether the template of the home page executes
    ([template_err]) and can be parsed at all ([template_parse_err]), the
    successive readings of the clock, and the identifier
    [primitive.NewObjectID] returns. *)
Record env := Env {
  find_err : option error;
  all_err : option error;
  insert_err : option error;
  update_err : option error;
  delete_err : option error;
  template_err : option error;
  template_parse_err : option error;
  Now : nat -> Time;
  NewObjectID : ObjectID
}.

(** The body of a request as [json.NewDecoder(r.Body).Decode] leaves it:
    the struct after decoding (fields decoded before an error stay set) and
    the error, if any. *)
Record Body := MkBody {
  decoded : todo;
  decode_err : option error
}.

Record Request := MkRequest {
  Method : string;
  Path : string;
  URLParams : list (string * string);
  ReqBody : Body
}.

Fixpoint assoc (k : string) (l : list (string * string)) : string :=
  match l with
  | [] => ""
  | (k', v) :: l' => if String.eqb k k' then v else assoc k l'
  end.

(** [chi.URLParam]: the empty string when the route has no such parameter. *)
Definition URLParam (r : Request) (key : string) : string := assoc key (URLParams r).

Definition json_Decode (b : Body) : todo * option error := (decoded b, decode_err b).

(** ** The handler monad

    A handler either returns, panics ([log.Panic]) or ends the process
    ([log.Fatal], which calls [os.Exit(1)]); in each case the world it
    leaves behind is kept. *)

Inductive outcome (A : Type) :=
| Returned (a : A)
| Panicked (v : string)
| Exited (code : Z).
Arguments Returned {A} a.
Arguments Panicked {A} v.
Arguments Exited {A} code.

Definition M (A : Type) : Type := world -> outcome A * world.

#[global] Instance M_ret : MRet M := fun A a w => (Returned a, w).

#[global] Instance M_bind : MBind M := fun A B k m w =>
  match m w with
  | (Returned a, w') => k a w'
  | (Panicked v, w') => (Panicked v, w')
  | (Exited c, w') => (Exited c, w')
  end.

Definition modify (f : world -> world) : M unit := fun w => (Returned tt, f w).

Definition get_coll : M (gmap N (gmap string bson)) := fun w => (Returned (coll w), w).

Definition put_coll (c : gmap N (gmap string bson)) : M unit :=
  modify (fun w => World c (written w) (calls w) (logged w)).

(** [rnd.JSON(w, status, v)] and [rnd.Template(w, status, files, nil)]. *)
Definition render (s : Z) (p : payload) : M unit :=
  modify (fun w => World (coll w) (written w ++ [Response s p]) (calls w) (logged w)).

Definition JSON (s : Z) (kv : list (string * jval)) : M unit := render s (PMap kv).

Definition record_call (c : call) : M unit :=
  modify (fun w => World (coll w) (written w) (calls w ++ [c]) (logged w)).

Definition fmt_Print (s : string) : M unit :=
  modify (fun w => World (coll w) (written w) (calls w) (logged w ++ [s])).

Definition log_Fatal (s : string) : M unit :=
  fun w => (Exited 1, World (coll w) (written w) (calls w) (logged w ++ [s])).

Definition log_Panic (s : string) : M unit :=
  fun w => (Panicked s, World (coll w) (written w) (calls w) (logged w ++ [s])).

(** ** The collection handle *)

(** [collection.Find(ctx, bson.M{})]: a cursor over every document. *)
Definition Find (e : env) : M (list (N * gmap string bson) + error) :=
  record_call CFind ;;
  match find_err e with
  | Some err => mret (inr err)
  | None => c ← get_coll; mret (inl (map_to_list c))
  end.

Fixpoint decode_all (l : list (N * gmap string bson)) : option (list todoModel) :=
  match l with
  | [] => Some []
  | (oid, d) :: l' =>
      match unmarshal_todoModel oid d, decode_all l' with
      | Some m, Some ms => Some (m :: ms)
      | _, _ => None
      end
  end.

(** [res.All(ctx, &todos)]. *)
Definition All (e : env) (cursor : list (N * gmap string bson)) : list todoModel + error :=
  match all_err e with
  | Some err => inr err
  | None =>
      match decode_all cursor with
      | Some ms => inl ms
      | None => inr "error decoding document"
      end
  end.

(** [collection.InsertOne(ctx, todoModel)]; the store refuses a second
    document with the same [_id]. *)
Definition InsertOne (e : env) (m : todoModel) : M (ObjectID + error) :=
  record_call (CInsertOne (M_ID m) (marshal_todoModel m)) ;;
  match insert_err e with
  | Some err => mret (inr err)
  | None =>
      c ← get_coll;
      match c !! M_ID m with
      | Some _ => mret (inr "E11000 duplicate key error")
      | None => put_coll (<[ M_ID m := marshal_todoModel m ]> c) ;; mret (inl (M_ID m))
      end
  end.

(** The [$set] operator: each element in turn replaces or adds its key. *)
Definition apply_set (set : list (string * bson)) (d : gmap string bson) : gmap string bson :=
  fold_left (fun acc kv => <[ fst kv := snd kv ]> acc) set d.

(** [collection.UpdateOne(ctx, bson.M{"_id": oid}, bson.D{{"$set", set}}, opts)].
    With [upsert] and no matching document, the store inserts the document
    made of the filter's [_id] and the [$set] elements. *)
Definition UpdateOne (e : env) (oid : ObjectID) (set : list (string * bson)) (upsert : bool)
  : M (UpdateResult + error) :=
  record_call (CUpdateOne oid set upsert) ;;
  match update_err e with
  | Some err => mret (inr err)
  | None =>
      c ← get_coll;
      match c !! oid with
      | Some d =>
          let d' := apply_set set d in
          put_coll (<[ oid := d' ]> c) ;;
          mret (inl (MkUpdateResult 1 (if decide (d' = d) then 0 else 1) 0 None))
      | None =>
          if upsert then
            put_coll (<[ oid := apply_set set ∅ ]> c) ;;
            mret (inl (MkUpdateResult 0 0 1 (Some oid)))
          else mret (inl (MkUpdateResult 0 0 0 None))
      end
  end.

(** [collection.DeleteOne(ctx, bson.M{"_id": oid})]: the count of deleted
    documents, zero when none matches. *)
Definition DeleteOne (e : env) (oid : ObjectID) : M (Z + error) :=
  record_call (CDeleteOne oid) ;;
  match delete_err e with
  | Some err => mret (inr err)
  | None =>
      c ← get_coll;
      match c !! oid with
      | Some _ => put_coll (delete oid c) ;; mret (inl 1)
      | None => mret (inl 0)
      end
  end.

(** ** The handlers

    [context.WithTimeout] and the deferred [cancel] of each handler release
    the operation context and leave the world as it is; they are not
    written out. *)

Definition checkErr (err : option error) : M unit :=
  match err with
  | Some e => log_Fatal e
  | None => mret tt
  end.

(** [panic(v)]. *)
Definition go_panic {A : Type} (v : string) : M A := fun w => (Panicked v, w).

(** [rnd.Template(w, status, files, nil)] writes the content type and the
    status, then parses the files with [template.Must], which panics when a
    file cannot be read or parsed, and executes the template, whose error it
    returns. *)
Definition Template (e : env) (s : Z) (files : list string) : M (option error) :=
  render s (PTemplate files) ;;
  match template_parse_err e with
  | Some err => go_panic err
  | None => mret (template_err e)
  end.

Definition homeHandler (e : env) (r : Request) : M unit :=
  err ← Template e StatusOK ["./static/home.html"];
  checkErr err.

Definition todo_of_model (t : todoModel) : todo :=
  {| ID := Hex (M_ID t);
     Title := M_Title t;
     IsCompleted := M_IsCompleted t;
     CreatedAt := M_CreatedAt t;
     UpdatedAt := M_UpdatedAt t |}.

Definition fetchTodos (e : env) (r : Request) : M unit :=
  res ← Find e;
  match res with
  | inr err =>
      JSON StatusInternalServerError
        [("message", JString "Failed to fetch todo"); ("error", JError err)]
  | inl cursor =>
      match All e cursor with
      | inr err => log_Fatal err
      | inl todos =>
          let todoList := map todo_of_model todos in
          JSON StatusOK [("data", JTodos todoList)]
      end
  end.

Definition createTodo (e : env) (r : Request) : M unit :=
  let (t, err) := json_Decode (ReqBody r) in
  match err with
  | Some err => render StatusBadRequest (PErr err)
  | None =>
      match validate_Struct (todo_fields t) with
      | Some validationErr =>
          JSON StatusBadRequest
            [("message", JString "Error parsing your request");
             ("error", JError validationErr)]
      | None =>
          if String.eqb (Title t) "" then
            JSON StatusBadRequest [("message", JString "Title is required")]
          else
            let todoModel :=
              {| M_ID := NewObjectID e;
                 M_Title := Title t;
                 M_IsCompleted := false;
                 M_CreatedAt := Now e 0%nat;
                 M_UpdatedAt := Now e 1%nat |} in
            result ← InsertOne e todoModel;
            match result with
            | inr insertErr =>
                JSON StatusInternalServerError
                  [("message", JString "Todo Creation failed");
                   ("error", JError insertErr)]
            | inl result =>
                JSON StatusCreated
                  [("message", JString "Todo creation successful");
                   ("result", JInsertResult result);
                   ("todo_id", JString (Hex (M_ID todoModel)))]
            end
      end
  end.

Definition deleteTodo (e : env) (r : Request) : M unit :=
  let id := TrimSpace (URLParam r "id") in
  match ObjectIDFromHex id with
  | inr err =>
      log_Panic id ;;
      JSON StatusBadRequest
        [("message", JString "Error Parsing your request"); ("error", JError err)]
  | inl objectId =>
      res ← DeleteOne e objectId;
      match res with
      | inr deleteErr =>
          JSON StatusInternalServerError
            [("message", JString "Error deleting the todo");
             ("error", JError deleteErr)]
      | inl res =>
          JSON StatusOK
            [("message", JString "Todo deletion successful");
             ("todo_id", JString id);
             ("result", JDeleteResult res)]
      end
  end.

(** [&(todo.Title) != nil]: the address of a variable is never [nil]. *)
Definition addr_not_nil {A} (x : A) : bool := true.

Definition updateTodo (e : env) (r : Request) : M unit :=
  let id := TrimSpace (URLParam r "id") in
  fmt_Print id ;;
  match ObjectIDFromHex id with
  | inr err =>
      JSON StatusBadRequest
        [("message", JString "Error Parsing your request"); ("error", JError err)]
  | inl objectID =>
      let (todo, err) := json_Decode (ReqBody r) in
      match err with
      | Some _ => JSON StatusBadRequest [("message", JString "Bad request")]
      | None => mret tt
      end ;;
      if negb (String.eqb (Title todo) "") || addr_not_nil (Title todo) then
        let updateObj := [("title", BString (Title todo))] in
        let UpdatedAt := rfc3339_roundtrip (Now e 0%nat) in
        let updateObj :=
          (updateObj ++ [("updated_at", BDateTime (NewDateTimeFromTime UpdatedAt))])%list in
        let upsert := true in
        result ← UpdateOne e objectID updateObj upsert;
        match result with
        | inr err =>
            JSON StatusInternalServerError
              [("message", JString "Update Failed"); ("error", JError err)]
        | inl result =>
            JSON StatusOK
              [("message", JString "Update Successful");
               ("todo_id", JString id);
               ("result", JUpdateResult result)]
        end
      else
        JSON StatusBadRequest [("message", JString "Title is required")]
  end.

(** ** The router (chi)

    A route pattern is a sequence of literal bytes and [{name}] parameters;
    a parameter takes the bytes up to the next [/] and never matches the
    empty string. *)

Inductive handler :=
| H_homeHandler
| H_fetchTodos
| H_createTodo
| H_updateTodo
| H_deleteTodo.

Inductive piece :=
| PChar (c : ascii)
| PParam (name : string).

Fixpoint parse_pattern (s : string) (cur : option string) : list piece :=
  match s with
  | EmptyString => []
  | String c s' =>
      match cur with
      | None =>
          if Ascii.eqb c "{" then parse_pattern s' (Some EmptyString)
          else PChar c :: parse_pattern s' None
      | Some name =>
          if Ascii.eqb c "}" then PParam name :: parse_pattern s' None
          else parse_pattern s' (Some (name ++ String c EmptyString))
      end
  end.

Fixpoint segment (s : string) : string * string :=
  match s with
  | EmptyString => (EmptyString, EmptyString)
  | String c s' =>
      if Ascii.eqb c "/" then (EmptyString, s)
      else let (v, rest) := segment s' in (String c v, rest)
  end.

Fixpoint match_pattern (ps : list piece) (path : string) : option (list (string * string)) :=
  match ps with
  | [] => if String.eqb path "" then Some [] else None
  | PChar c :: ps' =>
      match path with
      | String c' rest => if Ascii.eqb c c' then match_pattern ps' rest else None
      | EmptyString => None
      end
  | PParam name :: ps' =>
      let (v, rest) := segment path in
      if String.eqb v "" then None
      else option_map (cons (name, v)) (match_pattern ps' rest)
  end.

Record route := Route {
  route_method : string;
  route_pattern : string;
  route_handler : handler
}.

Definition Get := Route "GET".
Definition Post := Route "POST".
Definition Put := Route "PUT".
Definition Patch := Route "PATCH".
Definition Delete := Route "DELETE".

Inductive dispatch :=
| Found (h : handler) (params : list (string * string))
| NotFound
| MethodNotAllowed.

(** The first route whose pattern and method both match; a path that only
    routes of other methods match is answered 405, any other path 404. *)
Fixpoint find_route (rs : list route) (method path : string) (seen : bool) : dispatch :=
  match rs with
  | [] => if seen then MethodNotAllowed else NotFound
  | r :: rs' =>
      match match_pattern (parse_pattern (route_pattern r) None) path with
      | Some params =>
          if String.eqb (route_method r) method then Found (route_handler r) params
          else find_route rs' method path true
      | None => find_route rs' method path seen
      end
  end.

(** [todoHandlers] as the program registers it. *)
Definition todoHandlers : list route :=
  [ Get "/" H_fetchTodos;
    Post "/" H_createTodo;
    Put "/{id}" H_updateTodo;
    Delete "/{id}" H_deleteTodo ].

(** The route table of the earlier draft of the program (the file
    [main.go] of the repository root, which does not compile as Go): it
    registers [Patch] where the program registers [Put]. *)
Module Draft.
Definition todoHandlers : list route :=
  [ Get "/" H_fetchTodos;
    Post "/" H_createTodo;
    Patch "/{id}" H_updateTodo;
    Delete "/{id}" H_deleteTodo ].
End Draft.

Fixpoint strip_prefix (p s : string) : option string :=
  match p with
  | EmptyString => Some s
  | String c p' =>
      match s with
      | String c' s' => if Ascii.eqb c c' then strip_prefix p' s' else None
      | EmptyString => None
      end
  end.

(** [r.Mount(prefix, sub)] answers [prefix], [prefix/] and [prefix/*]; the
    sub-router sees the path after the prefix, [/] when nothing is left. *)
Definition mount_path (prefix path : string) : option string :=
  match strip_prefix prefix path with
  | Some EmptyString => Some "/"
  | Some (String c rest) =>
      if Ascii.eqb c "/" then Some (String c rest) else None
  | None => None
  end.

(** The methods chi routes ([methodMap]); a request with another method is
    answered 405 before its path is looked at. *)
Definition methodMap : list string :=
  ["CONNECT"; "DELETE"; "GET"; "HEAD"; "OPTIONS"; "PATCH"; "POST"; "PUT"; "TRACE"].

Definition known_method (method : string) : bool :=
  existsb (String.eqb method) methodMap.

(** The router built in [main]: [r.Get("/", homeHandler)] and
    [r.Mount("/todo", todoHandlers())].  [path] is the path chi routes on
    (the path of the URL, [/] when that is empty). *)
Definition router (sub : list route) (method path : string) : dispatch :=
  if known_method method then
    match find_route [Get "/" H_homeHandler] method path false with
    | NotFound =>
        match mount_path "/todo" path with
        | Some sub_path => find_route sub method sub_path false
        | None => NotFound
        end
    | d => d
    end
  else MethodNotAllowed.

Definition run_handler (h : handler) : env -> Request -> M unit :=
  match h with
  | H_homeHandler => homeHandler
  | H_fetchTodos => fetchTodos
  | H_createTodo => createTodo
  | H_updateTodo => updateTodo
  | H_deleteTodo => deleteTodo
  end.

(** [http.NotFound] writes this line, with its end of line. *)
Definition not_found_text : string :=
  "404 page not found" ++ String (ascii_of_N 10) EmptyString.

(** One request through the server's handler. *)
Definition ServeHTTP (e : env) (r : Request) : M unit :=
  match router todoHandlers (Method r) (Path r) with
  | Found h params =>
      run_handler h e (MkRequest (Method r) (Path r) params (ReqBody r))
  | NotFound => render StatusNotFound (PText not_found_text)
  | MethodNotAllowed => render StatusMethodNotAllowed (PText "")
  end.

(** ** Responses, sample inputs and the properties as stated *)

(** The [$set] document [updateTodo] builds from the decoded body. *)
Definition update_set (e : env) (t : todo) : list (string * bson) :=
  [ ("title", BString (Title t));
    ("updated_at",
     BDateTime (NewDateTimeFromTime (rfc3339_roundtrip (Now e 0%nat)))) ].

(** The path identifier of a request, as the handlers read it. *)
Definition request_id (r : Request) : string := TrimSpace (URLParam r "id").

Definition title_required : response :=
  Response StatusBadRequest (PMap [("message", JString "Title is required")]).

Definition parse_failure (err : error) : response :=
  Response StatusBadRequest
    (PMap [("message", JString "Error Parsing your request"); ("error", JError err)]).

Definition bad_request : response :=
  Response StatusBadRequest (PMap [("message", JString "Bad request")]).

Definition sample_id : string := "507f1f77bcf86cd799439011".

Definition sample_oid : ObjectID := 24912482966938930280208240657%N.

(** A backend on which every operation succeeds. *)
Definition healthy_env : env :=
  {| find_err := None; all_err := None; insert_err := None;
     update_err := None; delete_err := None; template_err := None;
     template_parse_err := None;
     Now := fun n => 1700000000123456789 + Z.of_nat n;
     NewObjectID := sample_oid |}.

Definition sample_record : gmap string bson :=
  marshal_todoModel
    (TodoModel sample_oid "buy milk" true 1690000000000000000 1690000000000000000).

Definition empty_world : world := World ∅ [] [] [].

Definition sample_world : world := World {[ sample_oid := sample_record ]} [] [] [].

Definition body_of_title (t : string) : Body :=
  MkBody (Todo "" t false zeroTime zeroTime) None.

(** A body that is not JSON: decoding fails and leaves the zero struct. *)
Definition malformed_body : Body :=
  MkBody zero_todo (Some "invalid character 'x' looking for beginning of value").

(** A request as the router hands it to a handler of [/todo/{id}]. *)
Definition id_request (method id : string) (b : Body) : Request :=
  MkRequest method ("/todo/" ++ id) [("id", id)] b.

Definition deletion_successful (id : string) (n : Z) : response :=
  Response StatusOK
    (PMap [("message", JString "Todo deletion successful");
           ("todo_id", JString id);
           ("result", JDeleteResult n)]).

Definition query_fails : env :=
  {| find_err := Some "server selection timeout"; all_err := None;
     insert_err := None; update_err := None; delete_err := None;
     template_err := None;
     template_parse_err := None; Now := Now healthy_env; NewObjectID := sample_oid |}.

Definition cursor_fails : env :=
  {| find_err := None; all_err := Some "cursor closed";
     insert_err := None; update_err := None; delete_err := None;
     template_err := None;
     template_parse_err := None; Now := Now healthy_env; NewObjectID := sample_oid |}.

Definition validation_failure (err : error) : response :=
  Response StatusBadRequest
    (PMap [("message", JString "Error parsing your request");
           ("error", JError err)]).

(** C3 as the claim states it, at one request: a decoded and validated body
    whose title is empty or made of white space only is refused with 400
    "Title is required" and no storage call. *)
Definition blank_title_refused (e : env) (r : Request) (w : world) : Prop :=
  decode_err (ReqBody r) = None ->
  validate_Struct (todo_fields (decoded (ReqBody r))) = None ->
  allSpace (Title (decoded (ReqBody r))) = true ->
  written (snd (createTodo e r w)) = (written w ++ [title_required])%list /\
  calls (snd (createTodo e r w)) = calls w.

(** C4 as the claim states it: some decoded payload without [isCompleted]
    and [createdAt] fails struct validation, and create answers 400 "Error
    parsing your request". *)
Definition required_fields_rejected : Prop :=
  exists (e : env) (r : Request) (w : world) (err : error),
    decode_err (ReqBody r) = None /\
    IsCompleted (decoded (ReqBody r)) = false /\
    CreatedAt (decoded (ReqBody r)) = zeroTime /\
    written (snd (createTodo e r w)) = (written w ++ [validation_failure err])%list.

Fixpoint no_slash (s : string) : bool :=
  match s with
  | EmptyString => true
  | String c s' => negb (Ascii.eqb c "/") && no_slash s'
  end.

(** C6 as the claim states it, at one identifier: both PUT and PATCH on
    [/todo/id] reach the update handler. *)
Definition put_and_patch_update (id : string) : Prop :=
  router todoHandlers "PUT" ("/todo/" ++ id) = Found H_updateTodo [("id", id)] /\
  router todoHandlers "PATCH" ("/todo/" ++ id) = Found H_updateTodo [("id", id)].

(** ** Further definitions used to state properties of the handlers *)

(** An [ObjectID] has twelve bytes. *)
Definition ObjectID_bound : N := (2 ^ 96)%N.

(** The first instants of the years -1, 9999 and 10001 (UTC): a clock
    reading from 1970 up to the first is in a year [Parse] reads in every
    time zone, one before the second or from the third on in a year it
    refuses in every time zone. *)
Definition year_minus1_start : Time := -62198755200 * 1000000000.

Definition year9999_start : Time := 253370764800 * 1000000000.

Definition year10001_start : Time := 253433923200 * 1000000000.

(** A clock set near the year 12000. *)
Definition far_future_env : env :=
  {| find_err := None; all_err := None; insert_err := None;
     update_err := None; delete_err := None; template_err := None;
     template_parse_err := None;
     Now := fun n => 316500000000 * 1000000000 + Z.of_nat n;
     NewObjectID := sample_oid |}.

(** A time as it comes back from the store: whole milliseconds. *)
Definition trunc_ms (t : Time) : Time := DateTime_Time (NewDateTimeFromTime t).

(** [n] blanks (the byte 32). *)
Fixpoint spaces (n : nat) : string :=
  match n with
  | O => EmptyString
  | S n' => String " " (spaces n')
  end.

Fixpoint all_hex (s : string) : bool :=
  match s with
  | EmptyString => true
  | String c s' =>
      match fromHexChar c with
      | Some _ => all_hex s'
      | None => false
      end
  end.

(** Every stored document can be read back as a [todoModel]. *)
Definition all_decode (c : gmap N (gmap string bson)) : Prop :=
  forall k d, c !! k = Some d -> is_Some (unmarshal_todoModel k d).

(** The elements the handlers store: a string under [title], a boolean
    under [iscompleted], a date-time under [createdat], [updatedat] and
    [updated_at]. *)
Definition element_ok (k : string) (v : bson) : bool :=
  match v with
  | BString _ => String.eqb k "title"
  | BBool _ => String.eqb k "iscompleted"
  | BDateTime _ =>
      String.eqb k "createdat" || String.eqb k "updatedat" || String.eqb k "updated_at"
  end.

(** A document made of such elements only. *)
Definition handler_shaped (d : gmap string bson) : Prop :=
  forall k v, d !! k = Some v -> element_ok k v = true.

Definition all_shaped (c : gmap N (gmap string bson)) : Prop :=
  forall k d, c !! k = Some d -> handler_shaped d.

(** A document with an element that no decoder of the driver takes for its
    field: a boolean or a date-time under [title], a string or a date-time
    under [iscompleted], a boolean under [createdat] or [updatedat]. *)
Definition mistyped (d : gmap string bson) : bool :=
  match d !! "title" with
  | Some (BBool _) | Some (BDateTime _) => true
  | _ =>
      match d !! "iscompleted" with
      | Some (BString _) | Some (BDateTime _) => true
      | _ =>
          match d !! "createdat", d !! "updatedat" with
          | Some (BBool _), _ | _, Some (BBool _) => true
          | _, _ => false
          end
      end
  end.

(** A backend on which every operation succeeds, with a later clock. *)
Definition later_env : env :=
  {| find_err := None; all_err := None; insert_err := None;
     update_err := None; delete_err := None; template_err := None;
     template_parse_err := None;
     Now := fun n => 1800000000123456789 + Z.of_nat n;
     NewObjectID := sample_oid |}.

(** Every stored identifier fits in twelve bytes. *)
Definition ids_bounded (c : gmap N (gmap string bson)) : Prop :=
  forall k d, c !! k = Some d -> (k < ObjectID_bound)%N.

Definition creation_successful (oid : ObjectID) : response :=
  Response StatusCreated
    (PMap [("message", JString "Todo creation successful");
           ("result", JInsertResult oid);
           ("todo_id", JString (Hex oid))]).

Definition creation_failed (err : error) : response :=
  Response StatusInternalServerError
    (PMap [("message", JString "Todo Creation failed"); ("error", JError err)]).

Definition update_failed (err : error) : response :=
  Response StatusInternalServerError
    (PMap [("message", JString "Update Failed"); ("error", JError err)]).

Definition deletion_failed (err : error) : response :=
  Response StatusInternalServerError
    (PMap [("message", JString "Error deleting the todo"); ("error", JError err)]).

Definition todo_list (l : list todo) : response :=
  Response StatusOK (PMap [("data", JTodos l)]).

(** The [todoModel] that [createTodo] builds for a body. *)
Definition new_todoModel (e : env) (t : todo) : todoModel :=
  {| M_ID := NewObjectID e;
     M_Title := Title t;
     M_IsCompleted := false;
     M_CreatedAt := Now e 0%nat;
     M_UpdatedAt := Now e 1%nat |}.

Definition insert_fails : env :=
  {| find_err := None; all_err := None; insert_err := Some "connection reset";
     update_err := None; delete_err := None; template_err := None;
     template_parse_err := None;
     Now := Now healthy_env; NewObjectID := sample_oid |}.

Definition update_fails : env :=
  {| find_err := None; all_err := None; insert_err := None;
     update_err := Some "connection reset"; delete_err := None;
     template_err := None;
     template_parse_err := None; Now := Now healthy_env; NewObjectID := sample_oid |}.

Definition delete_fails : env :=
  {| find_err := None; all_err := None; insert_err := None;
     update_err := None; delete_err := Some "connection reset";
     template_err := None;
     template_parse_err := None; Now := Now healthy_env; NewObjectID := sample_oid |}.

(** The ways one request can change the collection. *)
Inductive coll_step (e : env) (c : gmap N (gmap string bson)) :
  gmap N (gmap string bson) -> Prop :=
| step_same : coll_step e c c
| step_insert (m : todoModel) :
    c !! NewObjectID e = None ->
    M_ID m = NewObjectID e ->
    coll_step e c (<[ NewObjectID e := marshal_todoModel m ]> c)
| step_update (s : string) (oid : ObjectID) (t : todo) :
    ObjectIDFromHex s = inl oid ->
    coll_step e c (<[ oid := apply_set (update_set e t) (default ∅ (c !! oid)) ]> c)
| step_delete (s : string) (oid : ObjectID) :
    ObjectIDFromHex s = inl oid ->
    coll_step e c (delete oid c).

(** The status codes the server writes. *)
Definition known_status (s : Z) : bool :=
  (s =? StatusOK) || (s =? StatusCreated) || (s =? StatusBadRequest)
  || (s =? StatusNotFound) || (s =? StatusMethodNotAllowed)
  || (s =? StatusInternalServerError).

(** What one request adds to the world: the storage calls it issues and
    the responses it writes. *)
Inductive footprint (w w' : world) (o : outcome unit) : Prop :=
| Footprint (new_calls : list call) (new_responses : list response) :
    calls w' = (calls w ++ new_calls)%list ->
    written w' = (written w ++ new_responses)%list ->
    (length new_calls <= 1)%nat ->
    (length new_responses <= 2)%nat ->
    (o = Returned tt -> (1 <= length new_responses)%nat) ->
    forallb (fun r => known_status (status r)) new_responses = true ->
    footprint w w' o.

(** The server over a sequence of requests, each with what it reads from
    outside.  A handler that panics loses its connection and the server goes
    on with the next request; [log.Fatal] ends the process, and with it the
    sequence. *)
Fixpoint serve (reqs : list (env * Request)) (w : world) : outcome unit * world :=
  match reqs with
  | [] => (Returned tt, w)
  | (e, r) :: rest =>
      match ServeHTTP e r w with
      | (Exited code, w') => (Exited code, w')
      | (_, w') => serve rest w'
      end
  end.

Definition sample_requests : list (env * Request) :=
  [ (healthy_env, MkRequest "POST" "/todo" [] (body_of_title "buy milk"));
    (healthy_env, MkRequest "PUT" ("/todo/" ++ sample_id) [] malformed_body);
    (healthy_env, MkRequest "DELETE" "/todo/xyz" [] (body_of_title ""));
    (update_fails, MkRequest "PUT" "/todo/0123456789abcdef01234567" [] (body_of_title "x")) ].

(** The result [UpdateOne] reports for a [$set] with upsert, given the
    document stored under the identifier before the call, if any. *)
Definition update_result (oid : ObjectID) (set : list (string * bson))
    (before : option (gmap string bson)) : UpdateResult :=
  match before with
  | Some d => MkUpdateResult 1 (if decide (apply_set set d = d) then 0 else 1) 0 None
  | None => MkUpdateResult 0 0 1 (Some oid)
  end.

Definition update_successful (id : string) (res : UpdateResult) : response :=
  Response StatusOK
    (PMap [("message", JString "Update Successful");
           ("todo_id", JString id);
           ("result", JUpdateResult res)]).

(** * Properties of the handlers *)

Ltac run_monad :=
  unfold mbind, M_bind, mret, M_ret, JSON, render, record_call, fmt_Print,
    log_Fatal, log_Panic, put_coll, get_coll, modify; simpl.

Ltac run h :=
  unfold h, Find, InsertOne, UpdateOne, DeleteOne, json_Decode, request_id in *;
  run_monad.

(** The guard of [updateTodo] holds for every title. *)
Lemma update_guard (t : string) : negb (String.eqb t "") || addr_not_nil t = true.
Proof. unfold addr_not_nil. apply orb_true_r. Qed.

Section UpdateTodo.
Context (e : env) (r : Request) (w : world) (oid : ObjectID).
Hypothesis Hid : ObjectIDFromHex (request_id r) = inl oid.

Lemma updateTodo_calls :
  calls (snd (updateTodo e r w)) =
  (calls w ++ [CUpdateOne oid (update_set e (decoded (ReqBody r))) true])%list.
Proof.
  run updateTodo. rewrite Hid, update_guard.
  destruct (decode_err (ReqBody r)), (update_err e); simpl;
    try reflexivity; destruct (coll w !! oid); reflexivity.
Qed.

Lemma updateTodo_coll :
  update_err e = None ->
  coll (snd (updateTodo e r w)) =
  <[ oid := apply_set (update_set e (decoded (ReqBody r)))
              (default ∅ (coll w !! oid)) ]> (coll w).
Proof.
  intros Hup. run updateTodo. rewrite Hid, Hup, update_guard.
  destruct (decode_err (ReqBody r)); simpl;
    destruct (coll w !! oid); reflexivity.
Qed.

Lemma updateTodo_written :
  update_err e = None ->
  exists res,
    written (snd (updateTodo e r w)) =
    ((written w
      ++ match decode_err (ReqBody r) with
         | Some _ => [bad_request]
         | None => []
         end)
      ++ [Response StatusOK
            (PMap [("message", JString "Update Successful");
                   ("todo_id", JString (request_id r));
                   ("result", JUpdateResult res)])])%list.
Proof.
  intros Hup. run updateTodo. rewrite Hid, Hup, update_guard.
  destruct (decode_err (ReqBody r)); simpl;
    destruct (coll w !! oid); simpl; eexists;
    rewrite ?app_nil_r; reflexivity.
Qed.

Lemma updateTodo_returns : fst (updateTodo e r w) = Returned tt.
Proof.
  run updateTodo. rewrite Hid, update_guard.
  destruct (decode_err (ReqBody r)), (update_err e); simpl;
    try reflexivity; destruct (coll w !! oid); reflexivity.
Qed.
End UpdateTodo.

Lemma apply_set_update_set e t (d : gmap string bson) :
  apply_set (update_set e t) d =
  <[ "updated_at" :=
       BDateTime (NewDateTimeFromTime (rfc3339_roundtrip (Now e 0%nat))) ]>
    (<[ "title" := BString (Title t) ]> d).
Proof. reflexivity. Qed.

(** Reading a record back as a [todoModel] after the [$set] of an update:
    the title is the new one, every other field is as before.  The element
    [updated_at] that the update writes is not the element [updatedat] from
    which [UpdatedAt] is read. *)
Lemma unmarshal_after_update (oid : ObjectID) (d : gmap string bson)
    (title : string) (ms : Z) (m : todoModel) :
  unmarshal_todoModel oid d = Some m ->
  exists m',
    unmarshal_todoModel oid
      (<[ "updated_at" := BDateTime ms ]> (<[ "title" := BString title ]> d)) = Some m' /\
    M_ID m' = M_ID m /\
    M_Title m' = title /\
    M_IsCompleted m' = M_IsCompleted m /\
    M_CreatedAt m' = M_CreatedAt m /\
    M_UpdatedAt m' = M_UpdatedAt m.
Proof.
  unfold unmarshal_todoModel, decode_string, decode_bool, decode_time.
  rewrite !(lookup_insert_ne _ "updated_at") by discriminate.
  rewrite lookup_insert_eq.
  rewrite !(lookup_insert_ne _ "title") by discriminate.
  intros Hm.
  destruct (d !! "title") as [[] |]; try discriminate;
    destruct (d !! "iscompleted") as [[] |]; try discriminate;
    destruct (d !! "createdat") as [[] |]; try discriminate;
    destruct (d !! "updatedat") as [[] |]; try discriminate;
    injection Hm as <-; eexists; repeat split; reflexivity.
Qed.

(** ** Update *)

(** C1 (the code departs from the claim).  An update whose identifier is
    well formed and whose body has an empty title is not refused: the guard
    of [updateTodo] is true for every title, so the handler issues the
    storage update, answers 200 and the stored title becomes empty.  The
    claim asks for 400 "Title is required" and an untouched record. *)
Theorem updateTodo_empty_title_updates :
  let r := id_request "PUT" sample_id (body_of_title "") in
  ObjectIDFromHex (request_id r) = inl sample_oid /\
  Title (decoded (ReqBody r)) = "" /\
  (coll sample_world !! sample_oid) ≫= (.!! "title") = Some (BString "buy milk") /\
  updateTodo healthy_env r sample_world =
    (Returned tt,
     World
       {[ sample_oid :=
            <[ "updated_at" := BDateTime 1700000000000 ]>
              (<[ "title" := BString "" ]> sample_record) ]}
       [Response StatusOK
          (PMap [("message", JString "Update Successful");
                 ("todo_id", JString sample_id);
                 ("result", JUpdateResult (MkUpdateResult 1 1 0 None))])]
       [CUpdateOne sample_oid
          [("title", BString ""); ("updated_at", BDateTime 1700000000000)] true]
       [sample_id]).
Proof. vm_compute. repeat split; reflexivity. Qed.

(** C5 (the code departs from the claim).  When the body of an update does
    not decode, [updateTodo] writes 400 "Bad request" and goes on: it
    issues the storage update, here an upsert into an empty collection, and
    writes a second response.  The claim asks for a single error response
    and no storage call after it. *)
Theorem updateTodo_decode_failure_continues :
  let r := id_request "PUT" sample_id malformed_body in
  decode_err (ReqBody r) <> None /\
  updateTodo healthy_env r empty_world =
    (Returned tt,
     World
       {[ sample_oid :=
            <[ "updated_at" := BDateTime 1700000000000 ]>
              (<[ "title" := BString "" ]> ∅) ]}
       [bad_request;
        Response StatusOK
          (PMap [("message", JString "Update Successful");
                 ("todo_id", JString sample_id);
                 ("result",
                  JUpdateResult (MkUpdateResult 0 0 1 (Some sample_oid)))])]
       [CUpdateOne sample_oid
          [("title", BString ""); ("updated_at", BDateTime 1700000000000)] true]
       [sample_id]).
Proof. split; [discriminate | vm_compute; reflexivity]. Qed.

(** The frame of an update.  An update with a well-formed identifier of an
    existing record and a non-empty title issues one storage update, a
    [$set] of [title] and [updated_at] on that identifier.  After it the
    record is still stored under the same identifier, these two elements
    have the new values, every other element of the record (among them
    [iscompleted], [createdat] and [updatedat]) is as before, and so is
    every other record. *)
Theorem updateTodo_sets_title_and_updated_at
    (e : env) (r : Request) (w : world) (oid : ObjectID) (d : gmap string bson) :
  ObjectIDFromHex (request_id r) = inl oid ->
  coll w !! oid = Some d ->
  Title (decoded (ReqBody r)) <> "" ->
  update_err e = None ->
  let w' := snd (updateTodo e r w) in
  calls w' = (calls w ++ [CUpdateOne oid (update_set e (decoded (ReqBody r))) true])%list /\
  (exists d',
     coll w' !! oid = Some d' /\
     d' !! "title" = Some (BString (Title (decoded (ReqBody r)))) /\
     d' !! "updated_at" =
       Some (BDateTime (NewDateTimeFromTime (rfc3339_roundtrip (Now e 0%nat)))) /\
     (forall k, k <> "title" -> k <> "updated_at" -> d' !! k = d !! k) /\
     d' !! "iscompleted" = d !! "iscompleted" /\
     d' !! "createdat" = d !! "createdat" /\
     (forall m, unmarshal_todoModel oid d = Some m ->
        exists m',
          unmarshal_todoModel oid d' = Some m' /\
          M_ID m' = M_ID m /\
          M_Title m' = Title (decoded (ReqBody r)) /\
          M_IsCompleted m' = M_IsCompleted m /\
          M_CreatedAt m' = M_CreatedAt m)) /\
  (forall oid', oid' <> oid -> coll w' !! oid' = coll w !! oid').
Proof.
  intros Hid Hd _ Hup w'. subst w'.
  rewrite (updateTodo_calls e r w oid Hid), (updateTodo_coll e r w oid Hid Hup).
  rewrite Hd, apply_set_update_set. simpl.
  split; [reflexivity |]. split.
  - eexists. split; [apply lookup_insert_eq |].
    split; [rewrite lookup_insert_ne by discriminate; apply lookup_insert_eq |].
    split; [apply lookup_insert_eq |].
    split; [intros k Hk1 Hk2; rewrite !lookup_insert_ne by congruence; reflexivity |].
    split; [rewrite !lookup_insert_ne by discriminate; reflexivity |].
    split; [rewrite !lookup_insert_ne by discriminate; reflexivity |].
    intros m Hm.
    destruct (unmarshal_after_update oid d (Title (decoded (ReqBody r)))
                (NewDateTimeFromTime (rfc3339_roundtrip (Now e 0%nat))) m Hm)
      as (m' & Hm' & Hi & Ht & Hc & Hca & _).
    exists m'. repeat split; assumption.
  - intros oid' Hne. rewrite lookup_insert_ne by congruence. reflexivity.
Qed.

Lemma updateTodo_sets_title_and_updated_at_witness :
  let w' :=
    snd (updateTodo healthy_env (id_request "PUT" sample_id (body_of_title "buy bread"))
           sample_world) in
  exists d',
    coll w' !! sample_oid = Some d' /\
    d' !! "title" = Some (BString "buy bread") /\
    d' !! "iscompleted" = Some (BBool true) /\
    d' !! "createdat" = Some (BDateTime 1690000000000).
Proof.
  destruct (updateTodo_sets_title_and_updated_at healthy_env
              (id_request "PUT" sample_id (body_of_title "buy bread"))
              sample_world sample_oid sample_record)
    as (_ & (d' & Hd' & Ht & _ & _ & Hc & Hca & _) & _);
    [reflexivity | reflexivity | discriminate | reflexivity |].
  exists d'. repeat split; [exact Hd' | exact Ht | rewrite Hc | rewrite Hca];
    reflexivity.
Defined.

(** C7 (the code departs from the claim).  An update of an existing record
    with a non-empty title changes its title and leaves [isCompleted],
    [createdAt] and the identifier as they are, but it does not change the
    record's [updatedAt]: the [$set] names the element [updated_at], while
    create stores, and list reads, the field [UpdatedAt] under [updatedat].
    Here a record is created, then updated with a later clock; read back,
    and in the next list, its [UpdatedAt] is still the time of the create. *)
Theorem updateTodo_UpdatedAt_not_refreshed :
  let w1 :=
    snd (createTodo healthy_env
           (MkRequest "POST" "/todo" [] (body_of_title "buy milk")) empty_world) in
  let r := id_request "PUT" sample_id (body_of_title "buy bread") in
  let w2 := snd (updateTodo later_env r w1) in
  let w3 := snd (fetchTodos later_env (MkRequest "GET" "/todo" [] (body_of_title "")) w2) in
  ObjectIDFromHex (request_id r) = inl sample_oid /\
  (coll w1 !! sample_oid) ≫= unmarshal_todoModel sample_oid =
    Some (TodoModel sample_oid "buy milk" false
            1700000000123000000 1700000000123000000) /\
  calls w2 =
    [CInsertOne sample_oid
       (marshal_todoModel
          (TodoModel sample_oid "buy milk" false
             1700000000123456789 1700000000123456790));
     CUpdateOne sample_oid
       [("title", BString "buy bread"); ("updated_at", BDateTime 1800000000000)] true] /\
  (coll w2 !! sample_oid) ≫= unmarshal_todoModel sample_oid =
    Some (TodoModel sample_oid "buy bread" false
            1700000000123000000 1700000000123000000) /\
  (coll w2 !! sample_oid) ≫= (.!! "updatedat") = Some (BDateTime 1700000000123) /\
  (coll w2 !! sample_oid) ≫= (.!! "updated_at") = Some (BDateTime 1800000000000) /\
  written w3 =
    [creation_successful sample_oid;
     update_successful sample_id (MkUpdateResult 1 1 0 None);
     todo_list
       [Todo sample_id "buy bread" false 1700000000123000000 1700000000123000000]].
Proof. vm_compute. repeat split; reflexivity. Qed.

(** C10.  An update with a well-formed identifier that matches no record
    and a non-empty title inserts a document under that identifier (the
    upsert).  Its only elements are [title] and [updated_at]: it has no
    [iscompleted] and no [createdat], and read back as a [todoModel] these
    fields have their zero values. *)
Theorem updateTodo_upserts_partial_document
    (e : env) (r : Request) (w : world) (oid : ObjectID) :
  ObjectIDFromHex (request_id r) = inl oid ->
  coll w !! oid = None ->
  Title (decoded (ReqBody r)) <> "" ->
  update_err e = None ->
  let w' := snd (updateTodo e r w) in
  let d' : gmap string bson :=
    <[ "updated_at" :=
         BDateTime (NewDateTimeFromTime (rfc3339_roundtrip (Now e 0%nat))) ]>
      {[ "title" := BString (Title (decoded (ReqBody r))) ]} in
  calls w' = (calls w ++ [CUpdateOne oid (update_set e (decoded (ReqBody r))) true])%list /\
  coll w' = <[ oid := d' ]> (coll w) /\
  coll w' !! oid = Some d' /\
  (forall k, k <> "title" -> k <> "updated_at" -> d' !! k = None) /\
  d' !! "iscompleted" = None /\
  d' !! "createdat" = None /\
  unmarshal_todoModel oid d' =
    Some (TodoModel oid (Title (decoded (ReqBody r))) false zeroTime zeroTime).
Proof.
  intros Hid Hnone _ Hup w' d'. subst w' d'.
  rewrite (updateTodo_calls e r w oid Hid), (updateTodo_coll e r w oid Hid Hup).
  rewrite Hnone, apply_set_update_set. simpl.
  split; [reflexivity |]. split; [reflexivity |].
  split; [apply lookup_insert_eq |].
  split.
  { intros k Hk1 Hk2. rewrite lookup_insert_ne by congruence.
    apply lookup_singleton_ne. congruence. }
  split; [reflexivity |]. split; reflexivity.
Qed.

Lemma updateTodo_upserts_partial_document_witness :
  coll (snd (updateTodo healthy_env
               (id_request "PUT" sample_id (body_of_title "buy bread")) empty_world))
    !! sample_oid =
  Some (<[ "updated_at" := BDateTime 1700000000000 ]>
          {[ "title" := BString "buy bread" ]}).
Proof.
  destruct (updateTodo_upserts_partial_document healthy_env
              (id_request "PUT" sample_id (body_of_title "buy bread"))
              empty_world sample_oid)
    as (_ & _ & H & _); [reflexivity | reflexivity | discriminate | reflexivity |].
  exact H.
Defined.

(** ** Malformed identifiers *)

(** [updateTodo] with an identifier that does not parse: one response, 400
    "Error Parsing your request", and nothing else. *)
Lemma updateTodo_malformed_id (e : env) (r : Request) (w : world) (err : error) :
  ObjectIDFromHex (request_id r) = inr err ->
  updateTodo e r w =
    (Returned tt,
     World (coll w) (written w ++ [parse_failure err]) (calls w)
       (logged w ++ [request_id r])).
Proof. intros Hid. run updateTodo. rewrite Hid. reflexivity. Qed.

(** [deleteTodo] with an identifier that does not parse: [log.Panic] ends
    the handler before it writes anything. *)
Lemma deleteTodo_malformed_id (e : env) (r : Request) (w : world) (err : error) :
  ObjectIDFromHex (request_id r) = inr err ->
  deleteTodo e r w =
    (Panicked (request_id r),
     World (coll w) (written w) (calls w) (logged w ++ [request_id r])).
Proof. intros Hid. run deleteTodo. rewrite Hid. reflexivity. Qed.

(** C2 (the code departs from the claim).  On a malformed identifier
    [updateTodo] answers 400 "Error Parsing your request" without a storage
    call, as the claim says, but [deleteTodo] panics before the lines that
    write this response: no storage call is issued and no response is
    written at all. *)
Theorem deleteTodo_malformed_id_panics :
  let r := id_request "DELETE" "xyz" (body_of_title "") in
  ObjectIDFromHex (request_id r) = inr ErrInvalidHex /\
  deleteTodo healthy_env r sample_world =
    (Panicked "xyz", World (coll sample_world) [] [] ["xyz"]) /\
  updateTodo healthy_env r sample_world =
    (Returned tt,
     World (coll sample_world) [parse_failure ErrInvalidHex] [] ["xyz"]).
Proof. vm_compute. repeat split; reflexivity. Qed.

(** ** Delete *)

Lemma deleteTodo_run (e : env) (r : Request) (w : world) (oid : ObjectID) :
  ObjectIDFromHex (request_id r) = inl oid ->
  delete_err e = None ->
  deleteTodo e r w =
    (Returned tt,
     World (delete oid (coll w))
       (written w
        ++ [deletion_successful (request_id r)
              (match coll w !! oid with Some _ => 1 | None => 0 end)])
       (calls w ++ [CDeleteOne oid]) (logged w)).
Proof.
  intros Hid Hdel. run deleteTodo. rewrite Hid, Hdel. simpl.
  destruct (coll w !! oid) eqn:Hlook; simpl; [reflexivity |].
  rewrite (delete_id _ _ Hlook). reflexivity.
Qed.

(** C8.  With a well-formed identifier and a backend that carries out the
    delete, deleting an identifier that matches no record is answered 200
    "Todo deletion successful" (with a deleted count of zero) and leaves the
    collection as it is; and a second delete of the same identifier is
    answered 200 like the first and leaves the collection as the first
    delete left it. *)
Theorem deleteTodo_idempotent
    (e1 e2 : env) (r : Request) (w : world) (oid : ObjectID) :
  ObjectIDFromHex (request_id r) = inl oid ->
  delete_err e1 = None ->
  delete_err e2 = None ->
  let res1 := deleteTodo e1 r w in
  let res2 := deleteTodo e2 r (snd res1) in
  (coll w !! oid = None ->
   res1 = (Returned tt,
           World (coll w)
             (written w ++ [deletion_successful (request_id r) 0])
             (calls w ++ [CDeleteOne oid]) (logged w))) /\
  fst res1 = Returned tt /\
  fst res2 = Returned tt /\
  (exists n, written (snd res1) =
             (written w ++ [deletion_successful (request_id r) n])%list) /\
  written (snd res2) =
    (written (snd res1) ++ [deletion_successful (request_id r) 0])%list /\
  coll (snd res1) = delete oid (coll w) /\
  coll (snd res2) = coll (snd res1).
Proof.
  intros Hid H1 H2 res1 res2. subst res2 res1.
  rewrite (deleteTodo_run e1 r w oid Hid H1).
  rewrite (deleteTodo_run e2 r _ oid Hid H2). simpl.
  rewrite lookup_delete_eq, delete_delete_eq.
  repeat split; try reflexivity.
  - intros Hnone. rewrite Hnone, (delete_id _ _ Hnone). reflexivity.
  - eexists. reflexivity.
Qed.

Lemma deleteTodo_idempotent_witness :
  let r := id_request "DELETE" sample_id (body_of_title "") in
  let res1 := deleteTodo healthy_env r sample_world in
  let res2 := deleteTodo healthy_env r (snd res1) in
  written (snd res2) =
    [deletion_successful sample_id 1; deletion_successful sample_id 0] /\
  coll (snd res2) = coll (snd res1).
Proof.
  destruct (deleteTodo_idempotent healthy_env healthy_env
              (id_request "DELETE" sample_id (body_of_title ""))
              sample_world sample_oid)
    as (_ & _ & _ & _ & Hw & _ & Hc); [reflexivity | reflexivity | reflexivity |].
  split; [rewrite Hw; reflexivity | exact Hc].
Defined.

(** ** List *)

(** C9.  When the query of the collection fails, [fetchTodos] answers 500
    with a message and the backend's error and returns.  When the query
    succeeds and reading the cursor fails, [fetchTodos] ends the process
    ([log.Fatal]) and no response has been written. *)
Theorem fetchTodos_failures (e : env) (r : Request) (w : world) :
  (forall err, find_err e = Some err ->
     fetchTodos e r w =
       (Returned tt,
        World (coll w)
          (written w
           ++ [Response StatusInternalServerError
                 (PMap [("message", JString "Failed to fetch todo");
                        ("error", JError err)])])
          (calls w ++ [CFind]) (logged w))) /\
  (forall err, find_err e = None ->
     All e (map_to_list (coll w)) = inr err ->
     fetchTodos e r w =
       (Exited 1,
        World (coll w) (written w) (calls w ++ [CFind]) (logged w ++ [err]))).
Proof.
  split; intros err Hfind.
  - run fetchTodos. rewrite Hfind. reflexivity.
  - intros Hall. run fetchTodos. rewrite Hfind. simpl. rewrite Hall. reflexivity.
Qed.

Lemma fetchTodos_failures_witness :
  let r := MkRequest "GET" "/todo" [] (body_of_title "") in
  map status (written (snd (fetchTodos query_fails r sample_world))) = [500] /\
  fetchTodos cursor_fails r sample_world =
    (Exited 1, World (coll sample_world) [] [CFind] ["cursor closed"]).
Proof.
  split.
  - rewrite (proj1 (fetchTodos_failures query_fails
                      (MkRequest "GET" "/todo" [] (body_of_title "")) sample_world)
               "server selection timeout" eq_refl).
    reflexivity.
  - apply (proj2 (fetchTodos_failures cursor_fails
                    (MkRequest "GET" "/todo" [] (body_of_title "")) sample_world)
             "cursor closed"); reflexivity.
Defined.

(** ** Create *)

(** The wire struct has no [validate] tag, so no field of it can fail. *)
Lemma validate_todo (t : todo) : validate_Struct (todo_fields t) = None.
Proof. reflexivity. Qed.

(** [createTodo] writes exactly one response. *)
Lemma createTodo_written (e : env) (r : Request) (w : world) :
  exists resp,
    written (snd (createTodo e r w)) = (written w ++ [resp])%list /\
    forall err, resp <> validation_failure err.
Proof.
  run createTodo.
  destruct (decode_err (ReqBody r)); simpl;
    [eexists; split; [reflexivity | discriminate] |].
  destruct (String.eqb (Title (decoded (ReqBody r))) ""); simpl;
    [eexists; split; [reflexivity | discriminate] |].
  destruct (insert_err e); simpl;
    [eexists; split; [reflexivity | discriminate] |].
  destruct (coll w !! NewObjectID e); simpl;
    eexists; (split; [reflexivity | discriminate]).
Qed.

(** C3, counterexample.  A title of three spaces is not refused:
    [createTodo] compares the title with the empty string only, so it
    inserts the record and answers 201. *)
Lemma createTodo_blank_title_inserts :
  ~ blank_title_refused healthy_env
      (MkRequest "POST" "/todo" [] (body_of_title "   ")) empty_world.
Proof.
  intros H. destruct H as [Hw _]; [reflexivity | reflexivity | reflexivity |].
  vm_compute in Hw. discriminate Hw.
Qed.

(** C3, amended.  A create whose body decodes and passes struct validation
    and whose title is the empty string is answered 400 "Title is required";
    no storage call is issued and the collection is as before. *)
Theorem createTodo_empty_title (e : env) (r : Request) (w : world) :
  decode_err (ReqBody r) = None ->
  validate_Struct (todo_fields (decoded (ReqBody r))) = None ->
  Title (decoded (ReqBody r)) = "" ->
  createTodo e r w =
    (Returned tt,
     World (coll w) (written w ++ [title_required]) (calls w) (logged w)).
Proof.
  intros Hdec _ Htitle. run createTodo. rewrite Hdec, Htitle. reflexivity.
Qed.

Lemma createTodo_empty_title_witness :
  createTodo healthy_env (MkRequest "POST" "/todo" [] (body_of_title "")) sample_world =
    (Returned tt, World (coll sample_world) [title_required] [] []).
Proof.
  apply (createTodo_empty_title healthy_env
           (MkRequest "POST" "/todo" [] (body_of_title "")) sample_world);
    reflexivity.
Defined.

(** C4, counterexample.  No request is answered that way: the struct that
    [createTodo] validates is the wire struct [todo], and the [required]
    tags are on [todoModel]. *)
Lemma createTodo_no_required_fields : ~ required_fields_rejected.
Proof.
  intros (e & r & w & err & _ & _ & _ & Hw).
  destruct (createTodo_written e r w) as (resp & Hresp & Hne).
  rewrite Hresp in Hw. apply app_inv_head in Hw.
  injection Hw as Hw. exact (Hne err Hw).
Qed.

(** C4, amended.  Create runs struct validation on the decoded wire struct,
    which declares no required field, so the validation passes for every
    payload and create never answers 400 "Error parsing your request"; the
    [required] tags of [isCompleted] and [createdAt] are on the persisted
    struct, where a false [IsCompleted] or a zero [CreatedAt] fails them.  A
    decoded payload with a non-empty title goes on to the insert, whatever
    its other fields. *)
Theorem createTodo_validation_passes :
  (forall t : todo, validate_Struct (todo_fields t) = None) /\
  (forall m : todoModel,
     M_IsCompleted m = false \/ M_CreatedAt m = zeroTime ->
     validate_Struct (todoModel_fields m) <> None) /\
  (forall e r w err,
     written (snd (createTodo e r w)) <> (written w ++ [validation_failure err])%list) /\
  (forall e r w,
     decode_err (ReqBody r) = None ->
     Title (decoded (ReqBody r)) <> "" ->
     calls (snd (createTodo e r w)) =
       (calls w
        ++ [CInsertOne (NewObjectID e)
              (marshal_todoModel
                 (TodoModel (NewObjectID e) (Title (decoded (ReqBody r))) false
                    (Now e 0%nat) (Now e 1%nat)))])%list).
Proof.
  split; [exact validate_todo |]. split; [| split].
  - intros [i t c ca ua] [Hc | Hca]; simpl in *; subst;
      unfold validate_Struct, field_fails; simpl; [discriminate |].
    destruct c; discriminate.
  - intros e r w err Hw.
    destruct (createTodo_written e r w) as (resp & Hresp & Hne).
    rewrite Hresp in Hw. apply app_inv_head in Hw.
    injection Hw as Hw. exact (Hne err Hw).
  - intros e r w Hdec Htitle. run createTodo. rewrite Hdec. simpl.
    destruct (String.eqb_spec (Title (decoded (ReqBody r))) "") as [Heq | _];
      [contradiction |].
    destruct (insert_err e); simpl; [reflexivity |].
    destruct (coll w !! NewObjectID e); reflexivity.
Qed.

Lemma createTodo_validation_passes_witness :
  validate_Struct (todoModel_fields (TodoModel sample_oid "buy milk" false zeroTime zeroTime))
    <> None /\
  calls (snd (createTodo healthy_env
                (MkRequest "POST" "/todo" [] (body_of_title "buy milk")) empty_world)) =
    [CInsertOne sample_oid
       (marshal_todoModel
          (TodoModel sample_oid "buy milk" false
             1700000000123456789 1700000000123456790))].
Proof.
  destruct createTodo_validation_passes as (_ & Hmodel & _ & Hinsert).
  split.
  - apply Hmodel. left. reflexivity.
  - apply (Hinsert healthy_env
             (MkRequest "POST" "/todo" [] (body_of_title "buy milk")) empty_world);
      [reflexivity | discriminate].
Defined.

(** ** Routing *)

Lemma segment_no_slash (s : string) :
  no_slash s = true -> segment s = (s, EmptyString).
Proof.
  induction s as [| c s IH]; simpl; [reflexivity |].
  intros H. apply andb_true_iff in H as [Hc Hs].
  apply negb_true_iff in Hc. rewrite Hc, (IH Hs). reflexivity.
Qed.

(** A path [/todo/id] reaches the sub-router as [/id]. *)
Lemma mount_todo_id (id : string) : mount_path "/todo" ("/todo/" ++ id) = Some ("/" ++ id).
Proof. reflexivity. Qed.

Lemma home_not_todo (method id : string) :
  find_route [Get "/" H_homeHandler] method ("/todo/" ++ id) false = NotFound.
Proof. reflexivity. Qed.

Lemma match_root_id (id : string) :
  id <> "" -> match_pattern (parse_pattern "/" None) ("/" ++ id) = None.
Proof. intros H. destruct id; [congruence | reflexivity]. Qed.

Lemma eqb_empty (id : string) : id <> "" -> String.eqb id "" = false.
Proof. intros H. destruct id; [congruence | reflexivity]. Qed.

Lemma match_param_id (id : string) :
  id <> "" -> no_slash id = true ->
  match_pattern (parse_pattern "/{id}" None) ("/" ++ id) = Some [("id", id)].
Proof.
  intros Hne Hns. change ("/" ++ id) with (String "/" id).
  cbn -[segment String.eqb].
  rewrite (segment_no_slash id Hns), (eqb_empty id Hne). reflexivity.
Qed.

(** What a route table with one method on [/{id}] for updates answers on
    [/todo/id]. *)
Lemma find_route_id (update_method method : string) (id : string) :
  id <> "" -> no_slash id = true ->
  find_route
    [ Get "/" H_fetchTodos; Post "/" H_createTodo;
      Route update_method "/{id}" H_updateTodo; Delete "/{id}" H_deleteTodo ]
    method ("/" ++ id) false =
  if String.eqb update_method method then Found H_updateTodo [("id", id)]
  else if String.eqb "DELETE" method then Found H_deleteTodo [("id", id)]
  else MethodNotAllowed.
Proof.
  intros Hne Hns. unfold find_route, Get, Post, Delete, route_pattern.
  rewrite (match_root_id id Hne), (match_param_id id Hne Hns).
  reflexivity.
Qed.

(** C6, counterexample.  The route table has no PATCH route: the request
    is answered 405. *)
Lemma router_patch_not_routed : ~ put_and_patch_update sample_id.
Proof. intros [_ H]. vm_compute in H. discriminate H. Qed.

(** C6, amended.  The router sends GET /todo to [fetchTodos], POST /todo to
    [createTodo], PUT /todo/{id} to [updateTodo] and DELETE /todo/{id} to
    [deleteTodo], each with the identifier of the path; PATCH /todo/{id}
    has no route and is answered 405.  The route table of the earlier
    draft has PATCH where this one has PUT, so there PATCH reaches
    [updateTodo] and PUT is answered 405. *)
Theorem router_dispatch (id : string) :
  id <> "" ->
  no_slash id = true ->
  router todoHandlers "GET" "/todo" = Found H_fetchTodos [] /\
  router todoHandlers "POST" "/todo" = Found H_createTodo [] /\
  router todoHandlers "PUT" ("/todo/" ++ id) = Found H_updateTodo [("id", id)] /\
  router todoHandlers "DELETE" ("/todo/" ++ id) = Found H_deleteTodo [("id", id)] /\
  router todoHandlers "PATCH" ("/todo/" ++ id) = MethodNotAllowed /\
  router Draft.todoHandlers "PATCH" ("/todo/" ++ id) = Found H_updateTodo [("id", id)] /\
  router Draft.todoHandlers "PUT" ("/todo/" ++ id) = MethodNotAllowed.
Proof.
  intros Hne Hns.
  split; [reflexivity |]. split; [reflexivity |].
  unfold router, todoHandlers, Draft.todoHandlers, Put, Patch.
  rewrite !home_not_todo, mount_todo_id.
  rewrite !(find_route_id _ _ id Hne Hns).
  repeat split; reflexivity.
Qed.

Lemma router_dispatch_witness :
  router todoHandlers "PUT" ("/todo/" ++ sample_id) =
    Found H_updateTodo [("id", sample_id)] /\
  router todoHandlers "PATCH" ("/todo/" ++ sample_id) = MethodNotAllowed.
Proof.
  destruct (router_dispatch sample_id) as (_ & _ & Hput & _ & Hpatch & _);
    [discriminate | reflexivity |].
  split; [exact Hput | exact Hpatch].
Defined.

(** The server runs the handler the router finds, with the parameters of
    the route: a PUT on [/todo/id] is an [updateTodo] with that [id]. *)
Lemma ServeHTTP_put (e : env) (id : string) (ps : list (string * string)) (b : Body) :
  id <> "" ->
  no_slash id = true ->
  ServeHTTP e (MkRequest "PUT" ("/todo/" ++ id) ps b) =
  updateTodo e (id_request "PUT" id b).
Proof.
  intros Hne Hns. unfold ServeHTTP, id_request, router, todoHandlers, Put. simpl Method.
  simpl Path. rewrite home_not_todo, mount_todo_id, (find_route_id _ _ id Hne Hns).
  reflexivity.
Qed.

(** * Further properties *)

(** ** Identifiers: hexadecimal form and trimming *)

Lemma fromHexChar_hexDigit (d : N) : (d < 16)%N -> fromHexChar (hexDigit d) = Some d.
Proof.
  intros H. rewrite <- (N2Nat.id d).
  assert (Hi : (N.to_nat d < 16)%nat) by lia.
  revert Hi. generalize (N.to_nat d) as i. intros i Hi.
  do 16 (destruct i as [| i]; [reflexivity |]). lia.
Qed.

Lemma hex_Encode_length (k : nat) :
  forall n acc, String.length (hex_Encode k n acc) = (k + String.length acc)%nat.
Proof.
  induction k as [| k IH]; intros n acc; simpl; [reflexivity |].
  rewrite IH. simpl. lia.
Qed.

Lemma hex_Decode_Encode (k : nat) :
  forall n acc a,
    hex_Decode (hex_Encode k n acc) a =
    hex_Decode acc (a * 16 ^ N.of_nat k + n mod 16 ^ N.of_nat k)%N.
Proof.
  induction k as [| k IH]; intros n acc a.
  - simpl. rewrite N.mod_1_r. f_equal. lia.
  - cbn [hex_Encode]. rewrite IH. cbn [hex_Decode].
    rewrite fromHexChar_hexDigit by (apply N.mod_lt; discriminate).
    f_equal. rewrite Nat2N.inj_succ, N.pow_succ_r'.
    rewrite (N.Div0.mod_mul_r n 16 (16 ^ N.of_nat k)). lia.
Qed.

Lemma fromHexChar_lt (c : ascii) (d : N) : fromHexChar c = Some d -> (d < 16)%N.
Proof.
  intros H.
  destruct c as [[] [] [] [] [] [] [] []]; vm_compute in H;
    try discriminate H; injection H as <-; reflexivity.
Qed.

Lemma hex_Decode_bound (s : string) :
  forall a n, hex_Decode s a = Some n ->
    (n < (a + 1) * 16 ^ N.of_nat (String.length s))%N.
Proof.
  induction s as [| c s IH]; intros a n H; simpl in H.
  - injection H as <-. simpl. lia.
  - destruct (fromHexChar c) as [d |] eqn:Hc; [| discriminate].
    assert (Hd : (d < 16)%N) by exact (fromHexChar_lt c d Hc).
    apply IH in H. cbn [String.length]. rewrite Nat2N.inj_succ, N.pow_succ_r'.
    nia.
Qed.

Lemma hex_Decode_all_hex (s : string) :
  forall a n, hex_Decode s a = Some n -> all_hex s = true.
Proof.
  induction s as [| c s IH]; intros a n H; simpl in *; [reflexivity |].
  destruct (fromHexChar c); [eauto | discriminate].
Qed.

Lemma all_hex_Hex (k : nat) :
  forall n acc, all_hex acc = true -> all_hex (hex_Encode k n acc) = true.
Proof.
  induction k as [| k IH]; intros n acc H; simpl; [exact H |].
  apply IH. simpl. rewrite fromHexChar_hexDigit by (apply N.mod_lt; discriminate).
  exact H.
Qed.

(** A hexadecimal digit does not start a white space rune. *)
Lemma hex_not_space (c : ascii) (s : string) :
  fromHexChar c <> None -> spaceRune (String c s) = None.
Proof.
  intros H.
  destruct c as [[] [] [] [] [] [] [] []];
    try (exfalso; apply H; reflexivity);
    destruct s as [| c2 [| c3 s3]]; reflexivity.
Qed.

Lemma append_cons (c : ascii) (s t : string) :
  (String c s ++ t)%string = String c (s ++ t)%string.
Proof. reflexivity. Qed.

Lemma append_nil (t : string) : (EmptyString ++ t)%string = t.
Proof. reflexivity. Qed.

Lemma trimLeftFuel_spaces (n : nat) :
  forall fuel t, (n <= fuel)%nat ->
    trimLeftFuel fuel (spaces n ++ t) = trimLeftFuel (fuel - n) t.
Proof.
  induction n as [| n IH]; intros fuel t Hle.
  - rewrite append_nil, Nat.sub_0_r. reflexivity.
  - destruct fuel as [| fuel]; [lia |].
    cbn [spaces]. rewrite append_cons. cbn [trimLeftFuel].
    change (spaceRune (String " " (spaces n ++ t))) with (Some (spaces n ++ t)%string).
    cbv beta iota. rewrite IH by lia. reflexivity.
Qed.

Lemma trimLeftFuel_stop (fuel : nat) (t : string) :
  spaceRune t = None -> trimLeftFuel fuel t = t.
Proof. intros H. destruct fuel; simpl; [reflexivity |]. rewrite H. reflexivity. Qed.

Lemma length_append (s t : string) :
  String.length (s ++ t) = (String.length s + String.length t)%nat.
Proof.
  induction s as [| c s IH]; [reflexivity |].
  rewrite append_cons. simpl. rewrite IH. reflexivity.
Qed.

Lemma allSpaceFuel_spaces (n : nat) :
  forall fuel, (n <= fuel)%nat -> allSpaceFuel fuel (spaces n) = true.
Proof.
  induction n as [| n IH]; intros fuel Hle; [destruct fuel; reflexivity |].
  destruct fuel as [| fuel]; [lia |].
  cbn [spaces allSpaceFuel].
  change (spaceRune (String " " (spaces n))) with (Some (spaces n)).
  cbv beta iota. apply IH. lia.
Qed.

Lemma spaces_length (n : nat) : String.length (spaces n) = n.
Proof. induction n; simpl; congruence. Qed.

Lemma trimRight_spaces (n : nat) : trimRight (spaces n) = EmptyString.
Proof.
  destruct n; [reflexivity |]. cbn [spaces trimRight].
  change (String " " (spaces n)) with (spaces (S n)).
  unfold allSpace. rewrite allSpaceFuel_spaces by (rewrite spaces_length; lia).
  reflexivity.
Qed.

Lemma trimRight_hex_spaces (s : string) (m : nat) :
  all_hex s = true -> trimRight (s ++ spaces m) = s.
Proof.
  induction s as [| c s IH]; intros H.
  - rewrite append_nil. apply trimRight_spaces.
  - simpl in H. destruct (fromHexChar c) eqn:Hc; [| discriminate].
    rewrite append_cons. cbn [trimRight].
    unfold allSpace. cbn [String.length allSpaceFuel].
    rewrite hex_not_space by congruence.
    rewrite (IH H). reflexivity.
Qed.

Lemma spaces_app (n m : nat) : (spaces n ++ spaces m)%string = spaces (n + m).
Proof.
  induction n as [| n IH]; [reflexivity |].
  cbn [spaces Nat.add]. rewrite append_cons, IH. reflexivity.
Qed.

Lemma trimLeftFuel_all_spaces (n : nat) :
  forall fuel, (n <= fuel)%nat -> trimLeftFuel fuel (spaces n) = EmptyString.
Proof.
  induction n as [| n IH]; intros fuel Hle; [destruct fuel; reflexivity |].
  destruct fuel as [| fuel]; [lia |].
  cbn [spaces trimLeftFuel].
  change (spaceRune (String " " (spaces n))) with (Some (spaces n)).
  cbv beta iota. apply IH. lia.
Qed.

Lemma TrimSpace_padded (s : string) (n m : nat) :
  all_hex s = true -> TrimSpace (spaces n ++ s ++ spaces m) = s.
Proof.
  intros H. unfold TrimSpace, trimLeft.
  destruct s as [| c s].
  - rewrite append_nil, spaces_app.
    rewrite trimLeftFuel_all_spaces by (rewrite spaces_length; lia).
    reflexivity.
  - rewrite trimLeftFuel_spaces by (rewrite length_append, spaces_length; lia).
    rewrite trimLeftFuel_stop.
    + apply trimRight_hex_spaces. exact H.
    + simpl in H. rewrite append_cons. apply hex_not_space.
      destruct (fromHexChar c); [discriminate | discriminate].
Qed.

Lemma TrimSpace_hex (s : string) : all_hex s = true -> TrimSpace s = s.
Proof.
  intros H. generalize (TrimSpace_padded s 0 0 H).
  rewrite append_nil. cbn [spaces].
  assert (Hs : forall t : string, (t ++ EmptyString)%string = t).
  { induction t as [| c t IH]; [reflexivity |]. rewrite append_cons, IH. reflexivity. }
  rewrite Hs. trivial.
Qed.

Lemma Hex_all_hex (oid : ObjectID) : all_hex (Hex oid) = true.
Proof. apply all_hex_Hex. reflexivity. Qed.

Lemma ObjectIDFromHex_Hex_raw (oid : ObjectID) :
  (oid < ObjectID_bound)%N -> ObjectIDFromHex (Hex oid) = inl oid.
Proof.
  intros H. unfold ObjectIDFromHex, Hex.
  rewrite hex_Encode_length. cbn [String.length Nat.add Nat.eqb].
  rewrite hex_Decode_Encode. cbn [hex_Decode].
  rewrite N.mul_0_l, N.add_0_l, N.mod_small; [reflexivity |].
  exact H.
Qed.

Lemma request_id_Hex_raw (oid : ObjectID) (method : string) (b : Body) :
  (oid < ObjectID_bound)%N ->
  request_id (id_request method (Hex oid) b) = Hex oid /\
  ObjectIDFromHex (request_id (id_request method (Hex oid) b)) = inl oid.
Proof.
  intros H.
  assert (Hid : request_id (id_request method (Hex oid) b) = Hex oid).
  { unfold request_id, id_request, URLParam. cbn [URLParams assoc].
    rewrite String.eqb_refl. apply TrimSpace_hex, Hex_all_hex. }
  rewrite Hid. split; [reflexivity | exact (ObjectIDFromHex_Hex_raw oid H)].
Qed.

Lemma Hex_inj (a b : ObjectID) :
  (a < ObjectID_bound)%N -> (b < ObjectID_bound)%N -> Hex a = Hex b -> a = b.
Proof.
  intros Ha Hb Heq. pose proof (ObjectIDFromHex_Hex_raw a Ha) as H1.
  rewrite Heq, (ObjectIDFromHex_Hex_raw b Hb) in H1. congruence.
Qed.

(** X1.  The hexadecimal form of an identifier reads back as this
    identifier, also through the trimming the handlers apply to the path
    parameter: the [todo_id] that create and list return can be used as the
    [{id}] of an update or a delete. *)
Theorem request_id_Hex (oid : ObjectID) (method : string) (b : Body) :
  (oid < ObjectID_bound)%N ->
  String.length (Hex oid) = 24%nat /\
  ObjectIDFromHex (Hex oid) = inl oid /\
  ObjectIDFromHex (request_id (id_request method (Hex oid) b)) = inl oid.
Proof.
  intros H. split; [apply hex_Encode_length |].
  split; [exact (ObjectIDFromHex_Hex_raw oid H) |].
  exact (proj2 (request_id_Hex_raw oid method b H)).
Qed.

Lemma request_id_Hex_witness :
  ObjectIDFromHex (request_id (id_request "DELETE" (Hex sample_oid) (body_of_title ""))) =
  inl sample_oid.
Proof.
  destruct (request_id_Hex sample_oid "DELETE" (body_of_title "")) as (_ & _ & H);
    [reflexivity | exact H].
Defined.

Lemma ObjectIDFromHex_inl (s : string) (oid : ObjectID) :
  ObjectIDFromHex s = inl oid ->
  String.length s = 24%nat /\ all_hex s = true /\ (oid < ObjectID_bound)%N.
Proof.
  unfold ObjectIDFromHex. intros H.
  destruct (Nat.eqb_spec (String.length s) 24) as [Hlen | Hlen]; [| discriminate].
  destruct (hex_Decode s 0) as [n |] eqn:Hdec; [| discriminate].
  injection H as <-. split; [exact Hlen |].
  split; [exact (hex_Decode_all_hex s 0%N n Hdec) |].
  apply hex_Decode_bound in Hdec. rewrite Hlen in Hdec. exact Hdec.
Qed.

(** X2.  An identifier is accepted only when it has exactly 24 bytes, all
    of them hexadecimal digits, and the identifier it denotes fits in twelve
    bytes; a string of any other length is refused with [ErrInvalidHex]. *)
Theorem ObjectIDFromHex_accepts (s : string) :
  (forall oid, ObjectIDFromHex s = inl oid ->
     String.length s = 24%nat /\ all_hex s = true /\ (oid < ObjectID_bound)%N) /\
  (String.length s <> 24%nat -> ObjectIDFromHex s = inr ErrInvalidHex) /\
  (String.length s = 24%nat -> all_hex s = true ->
     exists oid, ObjectIDFromHex s = inl oid).
Proof.
  split; [intros oid; apply ObjectIDFromHex_inl |]. split.
  - intros Hlen. unfold ObjectIDFromHex.
    destruct (Nat.eqb_spec (String.length s) 24); [contradiction | reflexivity].
  - intros Hlen Hhex. unfold ObjectIDFromHex. rewrite Hlen. cbn [Nat.eqb].
    assert (Hd : forall t a, all_hex t = true -> exists n, hex_Decode t a = Some n).
    { induction t as [| c t IH]; intros a Ht; simpl in *; [eauto |].
      destruct (fromHexChar c); [apply IH; exact Ht | discriminate]. }
    destruct (Hd s 0%N Hhex) as [n Hn]. rewrite Hn. eauto.
Qed.

Lemma ObjectIDFromHex_accepts_witness :
  ObjectIDFromHex "507f1f77bcf86cd79943901" = inr ErrInvalidHex /\
  exists oid, ObjectIDFromHex "507F1F77BCF86CD799439011" = inl oid.
Proof.
  destruct (ObjectIDFromHex_accepts "507f1f77bcf86cd79943901") as (_ & Hshort & _).
  destruct (ObjectIDFromHex_accepts "507F1F77BCF86CD799439011") as (_ & _ & Hok).
  split; [apply Hshort; discriminate | apply Hok; reflexivity].
Defined.

(** X3.  Blanks before and after the identifier of the path do not count:
    a padded identifier denotes the same record as the bare one. *)
Theorem request_id_padded (method id : string) (b : Body) (n m : nat) (oid : ObjectID) :
  ObjectIDFromHex id = inl oid ->
  request_id (id_request method (spaces n ++ id ++ spaces m) b) = id /\
  ObjectIDFromHex (request_id (id_request method (spaces n ++ id ++ spaces m) b)) =
    inl oid.
Proof.
  intros H.
  assert (Hid : request_id (id_request method (spaces n ++ id ++ spaces m) b) = id).
  { unfold request_id, id_request, URLParam. cbn [URLParams assoc].
    rewrite String.eqb_refl. apply TrimSpace_padded.
    apply (ObjectIDFromHex_inl id oid H). }
  rewrite Hid. split; [reflexivity | exact H].
Qed.

Lemma request_id_padded_witness :
  request_id (id_request "PUT" ("  " ++ sample_id ++ " ") (body_of_title "x")) = sample_id.
Proof.
  destruct (request_id_padded "PUT" sample_id (body_of_title "x") 2 1 sample_oid)
    as (H & _); [reflexivity | exact H].
Defined.

(** ** Stored records *)

Lemma trunc_ms_bounds (t : Time) : trunc_ms t <= t < trunc_ms t + 1000000.
Proof.
  unfold trunc_ms, DateTime_Time, NewDateTimeFromTime.
  pose proof (Z.mod_pos_bound t 1000000 ltac:(lia)).
  pose proof (Z.div_mod t 1000000 ltac:(lia)). lia.
Qed.

Lemma unmarshal_marshal (m : todoModel) :
  unmarshal_todoModel (M_ID m) (marshal_todoModel m) =
  Some (TodoModel (M_ID m) (M_Title m) (M_IsCompleted m)
          (trunc_ms (M_CreatedAt m)) (trunc_ms (M_UpdatedAt m))).
Proof. reflexivity. Qed.

Lemma unmarshal_ID (k : ObjectID) (d : gmap string bson) (m : todoModel) :
  unmarshal_todoModel k d = Some m -> M_ID m = k.
Proof.
  unfold unmarshal_todoModel. intros H.
  destruct (decode_string d "title"), (decode_bool d "iscompleted"),
    (decode_time d "createdat"), (decode_time d "updatedat"); try discriminate.
  injection H as <-. reflexivity.
Qed.

(** X4.  What [InsertOne] stores for a [todoModel] reads back as the same
    record, with its two times cut to whole milliseconds (a time that is a
    whole number of milliseconds comes back unchanged, and the cut never
    moves a time by a millisecond or more). *)
Theorem marshal_roundtrip (m : todoModel) :
  unmarshal_todoModel (M_ID m) (marshal_todoModel m) =
    Some (TodoModel (M_ID m) (M_Title m) (M_IsCompleted m)
            (trunc_ms (M_CreatedAt m)) (trunc_ms (M_UpdatedAt m))) /\
  trunc_ms (M_CreatedAt m) <= M_CreatedAt m < trunc_ms (M_CreatedAt m) + 1000000 /\
  trunc_ms (M_UpdatedAt m) <= M_UpdatedAt m < trunc_ms (M_UpdatedAt m) + 1000000 /\
  (M_CreatedAt m mod 1000000 = 0 -> M_UpdatedAt m mod 1000000 = 0 ->
   unmarshal_todoModel (M_ID m) (marshal_todoModel m) = Some m).
Proof.
  split; [apply unmarshal_marshal |].
  split; [apply trunc_ms_bounds |]. split; [apply trunc_ms_bounds |].
  intros Hc Hu. rewrite unmarshal_marshal. destruct m as [i t c ca ua]. simpl in *.
  unfold trunc_ms, DateTime_Time, NewDateTimeFromTime.
  pose proof (Z.div_mod ca 1000000 ltac:(lia)).
  pose proof (Z.div_mod ua 1000000 ltac:(lia)).
  do 2 f_equal; lia.
Qed.

Lemma marshal_roundtrip_witness :
  unmarshal_todoModel sample_oid
    (marshal_todoModel (TodoModel sample_oid "buy milk" true 1690000000000000000 1690000000123000000)) =
  Some (TodoModel sample_oid "buy milk" true 1690000000000000000 1690000000123000000).
Proof.
  destruct (marshal_roundtrip
              (TodoModel sample_oid "buy milk" true 1690000000000000000 1690000000123000000))
    as (_ & _ & _ & H).
  apply H; reflexivity.
Defined.

(** ** Create *)

Lemma createTodo_run (e : env) (r : Request) (w : world) :
  decode_err (ReqBody r) = None ->
  Title (decoded (ReqBody r)) <> "" ->
  let m := new_todoModel e (decoded (ReqBody r)) in
  let issued := (calls w ++ [CInsertOne (NewObjectID e) (marshal_todoModel m)])%list in
  createTodo e r w =
    match insert_err e with
    | Some err =>
        (Returned tt,
         World (coll w) (written w ++ [creation_failed err]) issued (logged w))
    | None =>
        match coll w !! NewObjectID e with
        | Some _ =>
            (Returned tt,
             World (coll w)
               (written w ++ [creation_failed "E11000 duplicate key error"])
               issued (logged w))
        | None =>
            (Returned tt,
             World (<[ NewObjectID e := marshal_todoModel m ]> (coll w))
               (written w ++ [creation_successful (NewObjectID e)])
               issued (logged w))
        end
    end.
Proof.
  intros Hdec Htitle m issued. subst m issued. run createTodo. rewrite Hdec. simpl.
  destruct (String.eqb_spec (Title (decoded (ReqBody r))) "") as [Heq | _];
    [contradiction |].
  destruct (insert_err e); simpl; [reflexivity |].
  destruct (coll w !! NewObjectID e); reflexivity.
Qed.

(** X5.  A create with a decoded body, a non-empty title, a fresh
    identifier and a backend that carries out the insert is answered 201
    with the hexadecimal form of the new identifier.  The record stored
    under that identifier has the title of the body, is not completed and
    carries the two readings of the clock (whole milliseconds); no other
    record changes. *)
Theorem createTodo_stores_record (e : env) (r : Request) (w : world) :
  decode_err (ReqBody r) = None ->
  Title (decoded (ReqBody r)) <> "" ->
  insert_err e = None ->
  coll w !! NewObjectID e = None ->
  let w' := snd (createTodo e r w) in
  fst (createTodo e r w) = Returned tt /\
  written w' = (written w ++ [creation_successful (NewObjectID e)])%list /\
  (exists d,
     coll w' !! NewObjectID e = Some d /\
     unmarshal_todoModel (NewObjectID e) d =
       Some (TodoModel (NewObjectID e) (Title (decoded (ReqBody r))) false
               (trunc_ms (Now e 0%nat)) (trunc_ms (Now e 1%nat)))) /\
  (forall k, k <> NewObjectID e -> coll w' !! k = coll w !! k).
Proof.
  intros Hdec Htitle Hins Hfresh w'. subst w'.
  rewrite (createTodo_run e r w Hdec Htitle), Hins, Hfresh. simpl.
  split; [reflexivity |]. split; [reflexivity |]. split.
  - eexists. split; [apply lookup_insert_eq |]. reflexivity.
  - intros k Hk. apply lookup_insert_ne. congruence.
Qed.

Lemma createTodo_stores_record_witness :
  exists d,
    coll (snd (createTodo healthy_env
                 (MkRequest "POST" "/todo" [] (body_of_title "buy milk")) empty_world))
      !! sample_oid = Some d /\
    unmarshal_todoModel sample_oid d =
      Some (TodoModel sample_oid "buy milk" false
              1700000000123000000 1700000000123000000).
Proof.
  destruct (createTodo_stores_record healthy_env
              (MkRequest "POST" "/todo" [] (body_of_title "buy milk")) empty_world)
    as (_ & _ & (d & Hd & Hm) & _);
    [reflexivity | discriminate | reflexivity | reflexivity |].
  exists d. split; [exact Hd | exact Hm].
Defined.

(** X6.  When the insert fails, because the backend reports an error or
    because the identifier is already taken, create answers 500 "Todo
    Creation failed" with that error and the collection is as before. *)
Theorem createTodo_insert_failure (e : env) (r : Request) (w : world) :
  decode_err (ReqBody r) = None ->
  Title (decoded (ReqBody r)) <> "" ->
  insert_err e <> None \/ coll w !! NewObjectID e <> None ->
  exists err,
    createTodo e r w =
      (Returned tt,
       World (coll w) (written w ++ [creation_failed err])
         (calls w
          ++ [CInsertOne (NewObjectID e)
                (marshal_todoModel (new_todoModel e (decoded (ReqBody r))))])
         (logged w)).
Proof.
  intros Hdec Htitle Hfail. rewrite (createTodo_run e r w Hdec Htitle).
  destruct (insert_err e) as [err |]; [eexists; reflexivity |].
  destruct Hfail as [Hfail | Hfail]; [contradiction |].
  destruct (coll w !! NewObjectID e); [eexists; reflexivity | contradiction].
Qed.

Lemma createTodo_insert_failure_witness :
  (exists err,
     written (snd (createTodo insert_fails
                     (MkRequest "POST" "/todo" [] (body_of_title "buy milk")) empty_world)) =
     [creation_failed err]) /\
  (exists err,
     createTodo healthy_env
       (MkRequest "POST" "/todo" [] (body_of_title "buy bread")) sample_world =
     (Returned tt,
      World (coll sample_world) [creation_failed err]
        [CInsertOne sample_oid
           (marshal_todoModel (new_todoModel healthy_env (decoded (body_of_title "buy bread"))))]
        [])).
Proof.
  split.
  - destruct (createTodo_insert_failure insert_fails
                (MkRequest "POST" "/todo" [] (body_of_title "buy milk")) empty_world)
      as (err & H); [reflexivity | discriminate | left; discriminate |].
    exists err. rewrite H. reflexivity.
  - destruct (createTodo_insert_failure healthy_env
                (MkRequest "POST" "/todo" [] (body_of_title "buy bread")) sample_world)
      as (err & H); [reflexivity | discriminate | right; discriminate |].
    exists err. exact H.
Defined.

(** X7.  Create reads nothing of the request but the decoded title: two
    requests whose bodies decode with the same title have the same effect,
    whatever identifier, completion flag or times the bodies carry, and
    whatever the method, path and parameters. *)
Theorem createTodo_reads_title_only (e : env) (r1 r2 : Request) (w : world) :
  decode_err (ReqBody r1) = None ->
  decode_err (ReqBody r2) = None ->
  Title (decoded (ReqBody r1)) = Title (decoded (ReqBody r2)) ->
  createTodo e r1 w = createTodo e r2 w.
Proof.
  intros H1 H2 Ht. run createTodo. rewrite H1, H2, Ht. reflexivity.
Qed.

Lemma createTodo_reads_title_only_witness :
  createTodo healthy_env
    (MkRequest "POST" "/todo" []
       (MkBody (Todo "0123456789abcdef01234567" "buy milk" true 5 7) None)) empty_world =
  createTodo healthy_env
    (MkRequest "POST" "/todo" [] (body_of_title "buy milk")) empty_world.
Proof.
  apply createTodo_reads_title_only; reflexivity.
Defined.

(** ** List *)

Lemma decode_all_length (l : list (N * gmap string bson)) :
  forall ms, decode_all l = Some ms -> length ms = length l.
Proof.
  induction l as [| [k d] l IH]; intros ms H; simpl in H.
  - injection H as <-. reflexivity.
  - destruct (unmarshal_todoModel k d); [| discriminate].
    destruct (decode_all l) as [ms' |]; [| discriminate].
    injection H as <-. simpl. f_equal. apply IH. reflexivity.
Qed.

Lemma decode_all_elem (l : list (N * gmap string bson)) :
  forall ms, decode_all l = Some ms ->
    forall m, m ∈ ms <-> exists k d, (k, d) ∈ l /\ unmarshal_todoModel k d = Some m.
Proof.
  induction l as [| [k d] l IH]; intros ms H m; simpl in H.
  - injection H as <-. split.
    + intros Hin. apply elem_of_nil in Hin. contradiction.
    + intros (k & d & Hin & _). apply elem_of_nil in Hin. contradiction.
  - destruct (unmarshal_todoModel k d) as [m0 |] eqn:Hm0; [| discriminate].
    destruct (decode_all l) as [ms' |]; [| discriminate].
    injection H as <-. rewrite elem_of_cons, (IH ms' eq_refl m). split.
    + intros [-> | (k' & d' & Hin & Hm)].
      * exists k, d. split; [apply elem_of_cons; left; reflexivity | exact Hm0].
      * exists k', d'. split; [apply elem_of_cons; right; exact Hin | exact Hm].
    + intros (k' & d' & Hin & Hm). apply elem_of_cons in Hin as [Heq | Hin].
      * injection Heq as -> ->. left. congruence.
      * right. eauto.
Qed.

Lemma decode_all_total (l : list (N * gmap string bson)) :
  (forall k d, (k, d) ∈ l -> is_Some (unmarshal_todoModel k d)) ->
  exists ms, decode_all l = Some ms.
Proof.
  induction l as [| [k d] l IH]; intros H; simpl; [eauto |].
  destruct (H k d) as [m Hm]; [apply elem_of_cons; left; reflexivity |].
  rewrite Hm. destruct IH as [ms Hms].
  - intros k' d' Hin. apply H. apply elem_of_cons. right. exact Hin.
  - rewrite Hms. eauto.
Qed.

Lemma decode_all_fail (l : list (N * gmap string bson)) (k : N) (d : gmap string bson) :
  (k, d) ∈ l -> unmarshal_todoModel k d = None -> decode_all l = None.
Proof.
  induction l as [| [k' d'] l IH]; intros Hin Hm.
  - apply elem_of_nil in Hin. contradiction.
  - simpl. apply elem_of_cons in Hin as [Heq | Hin].
    + injection Heq as <- <-. rewrite Hm. reflexivity.
    + rewrite (IH Hin Hm). destruct (unmarshal_todoModel k' d'); reflexivity.
Qed.

Lemma all_decode_list (c : gmap N (gmap string bson)) :
  all_decode c -> exists ms, decode_all (map_to_list c) = Some ms.
Proof.
  intros H. apply decode_all_total. intros k d Hin.
  apply elem_of_map_to_list in Hin. exact (H k d Hin).
Qed.

Lemma fetchTodos_run (e : env) (r : Request) (w : world) (ms : list todoModel) :
  find_err e = None ->
  all_err e = None ->
  decode_all (map_to_list (coll w)) = Some ms ->
  fetchTodos e r w =
    (Returned tt,
     World (coll w) (written w ++ [todo_list (map todo_of_model ms)])
       (calls w ++ [CFind]) (logged w)).
Proof.
  intros Hfind Hall Hdec. run fetchTodos. rewrite Hfind. simpl.
  unfold All. rewrite Hall, Hdec. reflexivity.
Qed.

(** X8.  List only reads: whatever the backend does and however the
    request ends, the collection is as before and exactly one storage call,
    the query, has been issued. *)
Theorem fetchTodos_reads_only (e : env) (r : Request) (w : world) :
  coll (snd (fetchTodos e r w)) = coll w /\
  calls (snd (fetchTodos e r w)) = (calls w ++ [CFind])%list.
Proof.
  run fetchTodos. destruct (find_err e); simpl; [split; reflexivity |].
  destruct (All e (map_to_list (coll w))); split; reflexivity.
Qed.

Lemma fetchTodos_listing (e : env) (r : Request) (w : world) :
  find_err e = None ->
  all_err e = None ->
  all_decode (coll w) ->
  exists ms,
    fetchTodos e r w =
      (Returned tt,
       World (coll w) (written w ++ [todo_list (map todo_of_model ms)])
         (calls w ++ [CFind]) (logged w)) /\
    length ms = size (coll w) /\
    (forall m, m ∈ ms <->
       exists d, coll w !! M_ID m = Some d /\ unmarshal_todoModel (M_ID m) d = Some m).
Proof.
  intros Hfind Hall Hdec.
  destruct (all_decode_list (coll w) Hdec) as [ms Hms]. exists ms.
  split; [exact (fetchTodos_run e r w ms Hfind Hall Hms) |].
  split; [rewrite (decode_all_length _ ms Hms); apply length_map_to_list |].
  intros m. rewrite (decode_all_elem _ ms Hms m). split.
  - intros (k & d & Hin & Hm). pose proof (unmarshal_ID k d m Hm) as ->.
    exists d. split; [apply elem_of_map_to_list; exact Hin | exact Hm].
  - intros (d & Hd & Hm). exists (M_ID m), d.
    split; [apply elem_of_map_to_list; exact Hd | exact Hm].
Qed.

Lemma handler_shaped_decodes (k : ObjectID) (d : gmap string bson) :
  handler_shaped d -> is_Some (unmarshal_todoModel k d).
Proof.
  intros H. unfold unmarshal_todoModel, decode_string, decode_bool, decode_time.
  destruct (d !! "title") as [[] |] eqn:Ht;
    try (apply H in Ht; discriminate Ht);
    destruct (d !! "iscompleted") as [[] |] eqn:Hc;
    try (apply H in Hc; discriminate Hc);
    destruct (d !! "createdat") as [[] |] eqn:Hca;
    try (apply H in Hca; discriminate Hca);
    destruct (d !! "updatedat") as [[] |] eqn:Hua;
    try (apply H in Hua; discriminate Hua);
    eexists; reflexivity.
Qed.

Lemma marshal_shaped (m : todoModel) : handler_shaped (marshal_todoModel m).
Proof.
  intros k v H. unfold marshal_todoModel in H.
  repeat (apply lookup_insert_Some in H as [[<- <-] | [_ H]]; [reflexivity |]).
  rewrite lookup_empty in H. discriminate H.
Qed.

Lemma mistyped_refused (k : ObjectID) (d : gmap string bson) :
  mistyped d = true -> unmarshal_todoModel k d = None.
Proof.
  unfold mistyped, unmarshal_todoModel, decode_string, decode_bool, decode_time.
  destruct (d !! "title") as [[] |]; try reflexivity;
    destruct (d !! "iscompleted") as [[] |]; try reflexivity;
    destruct (d !! "createdat") as [[] |]; try reflexivity;
    destruct (d !! "updatedat") as [[] |]; try reflexivity; discriminate.
Qed.

(** X9.  With a backend that answers the query and a collection of
    documents made of the elements the handlers store (a string under
    [title], a boolean under [iscompleted], date-times under [createdat],
    [updatedat] and [updated_at]), list answers 200 with one entry per
    stored record: as many entries as records, and a record is listed
    exactly when it is stored under its identifier. *)
Theorem fetchTodos_lists_every_record (e : env) (r : Request) (w : world) :
  find_err e = None ->
  all_err e = None ->
  all_shaped (coll w) ->
  exists ms,
    fetchTodos e r w =
      (Returned tt,
       World (coll w) (written w ++ [todo_list (map todo_of_model ms)])
         (calls w ++ [CFind]) (logged w)) /\
    length ms = size (coll w) /\
    (forall m, m ∈ ms <->
       exists d, coll w !! M_ID m = Some d /\ unmarshal_todoModel (M_ID m) d = Some m).
Proof.
  intros Hfind Hall Hshape. apply (fetchTodos_listing e r w Hfind Hall).
  intros k d Hd. apply handler_shaped_decodes. exact (Hshape k d Hd).
Qed.

Lemma sample_world_decodes : all_decode (coll sample_world).
Proof.
  intros k d H. unfold sample_world, coll in H.
  apply lookup_singleton_Some in H as [<- <-]. eexists. reflexivity.
Qed.

Lemma sample_world_shaped : all_shaped (coll sample_world).
Proof.
  intros k d H. unfold sample_world, coll in H.
  apply lookup_singleton_Some in H as [_ <-]. apply marshal_shaped.
Qed.

Lemma fetchTodos_lists_every_record_witness :
  exists ms,
    fetchTodos healthy_env (MkRequest "GET" "/todo" [] (body_of_title "")) sample_world =
      (Returned tt,
       World (coll sample_world) [todo_list (map todo_of_model ms)] [CFind] []) /\
    length ms = 1%nat.
Proof.
  destruct (fetchTodos_lists_every_record healthy_env
              (MkRequest "GET" "/todo" [] (body_of_title "")) sample_world)
    as (ms & Hrun & Hlen & _);
    [reflexivity | reflexivity | exact sample_world_shaped |].
  exists ms. split; [exact Hrun | rewrite Hlen; reflexivity].
Defined.

(** X10.  One stored document with an element that no decoder takes for
    its field (a boolean or a date-time under [title], a string or a
    date-time under [iscompleted], a boolean under [createdat] or
    [updatedat]) is enough for list to end the process: the query is
    answered but no response is written. *)
Theorem fetchTodos_undecodable_exits
    (e : env) (r : Request) (w : world) (k : ObjectID) (d : gmap string bson) :
  find_err e = None ->
  coll w !! k = Some d ->
  mistyped d = true ->
  exists err,
    fetchTodos e r w =
      (Exited 1, World (coll w) (written w) (calls w ++ [CFind]) (logged w ++ [err])).
Proof.
  intros Hfind Hd Hm. run fetchTodos. rewrite Hfind. simpl. unfold All.
  assert (Hdec : decode_all (map_to_list (coll w)) = None).
  { apply (decode_all_fail _ k d); [apply elem_of_map_to_list; exact Hd |].
    apply mistyped_refused. exact Hm. }
  rewrite Hdec. destruct (all_err e); eexists; reflexivity.
Qed.

Lemma fetchTodos_undecodable_exits_witness :
  exists err,
    fetchTodos healthy_env (MkRequest "GET" "/todo" [] (body_of_title ""))
      (World {[ sample_oid := {[ "title" := BBool true ]} ]} [] [] []) =
    (Exited 1,
     World {[ sample_oid := {[ "title" := BBool true ]} ]} [] [CFind] [err]).
Proof.
  destruct (fetchTodos_undecodable_exits healthy_env
              (MkRequest "GET" "/todo" [] (body_of_title ""))
              (World {[ sample_oid := {[ "title" := BBool true ]} ]} [] [] [])
              sample_oid {[ "title" := BBool true ]})
    as (err & H); [reflexivity | reflexivity | reflexivity |].
  exists err. exact H.
Defined.

(** ** Backend failures on update and delete *)

(** X11.  When the backend refuses the update, [updateTodo] answers 500
    "Update Failed" with the backend's error (after 400 "Bad request" when
    the body did not decode) and the collection is as before. *)
Theorem updateTodo_backend_failure
    (e : env) (r : Request) (w : world) (oid : ObjectID) (err : error) :
  ObjectIDFromHex (request_id r) = inl oid ->
  update_err e = Some err ->
  updateTodo e r w =
    (Returned tt,
     World (coll w)
       ((written w
         ++ match decode_err (ReqBody r) with
            | Some _ => [bad_request]
            | None => []
            end)
        ++ [update_failed err])
       (calls w ++ [CUpdateOne oid (update_set e (decoded (ReqBody r))) true])
       (logged w ++ [request_id r])).
Proof.
  intros Hid Hup. run updateTodo. rewrite Hid, Hup, update_guard.
  destruct (decode_err (ReqBody r)); simpl; rewrite ?app_nil_r; reflexivity.
Qed.

Lemma updateTodo_backend_failure_witness :
  updateTodo update_fails (id_request "PUT" sample_id (body_of_title "buy bread"))
    sample_world =
  (Returned tt,
   World (coll sample_world) [update_failed "connection reset"]
     [CUpdateOne sample_oid
        [("title", BString "buy bread"); ("updated_at", BDateTime 1700000000000)] true]
     [sample_id]).
Proof.
  apply (updateTodo_backend_failure update_fails
           (id_request "PUT" sample_id (body_of_title "buy bread")) sample_world
           sample_oid "connection reset"); reflexivity.
Defined.

(** X12.  When the backend refuses the delete, [deleteTodo] answers 500
    "Error deleting the todo" with the backend's error and the collection is
    as before. *)
Theorem deleteTodo_backend_failure
    (e : env) (r : Request) (w : world) (oid : ObjectID) (err : error) :
  ObjectIDFromHex (request_id r) = inl oid ->
  delete_err e = Some err ->
  deleteTodo e r w =
    (Returned tt,
     World (coll w) (written w ++ [deletion_failed err])
       (calls w ++ [CDeleteOne oid]) (logged w)).
Proof. intros Hid Hdel. run deleteTodo. rewrite Hid, Hdel. reflexivity. Qed.

Lemma deleteTodo_backend_failure_witness :
  deleteTodo delete_fails (id_request "DELETE" sample_id (body_of_title "")) sample_world =
  (Returned tt,
   World (coll sample_world) [deletion_failed "connection reset"]
     [CDeleteOne sample_oid] []).
Proof.
  apply (deleteTodo_backend_failure delete_fails
           (id_request "DELETE" sample_id (body_of_title "")) sample_world
           sample_oid "connection reset"); reflexivity.
Defined.

(** X13.  A delete that the backend carries out removes the record of the
    identifier and nothing else: afterwards the identifier is free, every
    other record is as before, and the count in the response is 1 when the
    record existed and 0 when it did not. *)
Theorem deleteTodo_removes_only_target
    (e : env) (r : Request) (w : world) (oid : ObjectID) :
  ObjectIDFromHex (request_id r) = inl oid ->
  delete_err e = None ->
  let w' := snd (deleteTodo e r w) in
  coll w' !! oid = None /\
  (forall k, k <> oid -> coll w' !! k = coll w !! k) /\
  (is_Some (coll w !! oid) ->
   written w' = (written w ++ [deletion_successful (request_id r) 1])%list /\
   S (size (coll w')) = size (coll w)) /\
  (coll w !! oid = None ->
   written w' = (written w ++ [deletion_successful (request_id r) 0])%list /\
   coll w' = coll w).
Proof.
  intros Hid Hdel w'. subst w'. rewrite (deleteTodo_run e r w oid Hid Hdel). simpl.
  split; [apply lookup_delete_eq |].
  split; [intros k Hk; apply lookup_delete_ne; congruence |].
  split.
  - intros [d Hd]. rewrite Hd. split; [reflexivity |].
    rewrite <- (insert_delete_id (coll w) oid d Hd) at 2.
    symmetry. apply map_size_insert_None, lookup_delete_eq.
  - intros Hnone. rewrite Hnone. split; [reflexivity | apply delete_id; exact Hnone].
Qed.

Lemma deleteTodo_removes_only_target_witness :
  coll (snd (deleteTodo healthy_env (id_request "DELETE" sample_id (body_of_title ""))
               sample_world)) !! sample_oid = None /\
  written (snd (deleteTodo healthy_env (id_request "DELETE" sample_id (body_of_title ""))
                  sample_world)) = [deletion_successful sample_id 1].
Proof.
  destruct (deleteTodo_removes_only_target healthy_env
              (id_request "DELETE" sample_id (body_of_title "")) sample_world sample_oid)
    as (Hgone & _ & Hsome & _); [reflexivity | reflexivity |].
  split; [exact Hgone |].
  destruct Hsome as [Hw _]; [eexists; reflexivity | exact Hw].
Defined.

Lemma rfc3339_roundtrip_in_range (t : Time) :
  year0_start <= t < year10000_start ->
  rfc3339_roundtrip t = t - t mod 1000000000.
Proof.
  intros [Hlo Hhi]. unfold rfc3339_roundtrip.
  apply Z.leb_le in Hlo. apply Z.ltb_lt in Hhi. rewrite Hlo, Hhi. reflexivity.
Qed.

Lemma rfc3339_roundtrip_out_of_range (t : Time) :
  t < year0_start \/ year10000_start <= t ->
  rfc3339_roundtrip t = zeroTime.
Proof.
  intros H. unfold rfc3339_roundtrip.
  destruct (Z.leb_spec year0_start t); [| reflexivity].
  destruct (Z.ltb_spec t year10000_start); [| reflexivity].
  lia.
Qed.

(** X14.  The [title] an update writes is the title of the body.  For a
    clock reading from 1970 up to the year 9998, the [updated_at] it writes
    is the reading cut to whole seconds: a whole number of seconds, not
    after the reading and less than a second before it.  For a reading
    before the year -1 or after the year 10000, whose year [Parse] refuses
    in every time zone, it is the zero time. *)
Theorem update_set_whole_seconds (e : env) (t : todo) :
  exists ms,
    update_set e t = [("title", BString (Title t)); ("updated_at", BDateTime ms)] /\
    (0 <= Now e 0%nat < year9999_start ->
     ms = 1000 * (Now e 0%nat / 1000000000) /\
     DateTime_Time ms <= Now e 0%nat < DateTime_Time ms + 1000000000) /\
    (Now e 0%nat < year_minus1_start \/ year10001_start <= Now e 0%nat ->
     ms = NewDateTimeFromTime zeroTime).
Proof.
  eexists. split; [reflexivity |]. split.
  - intros Hrange.
    rewrite rfc3339_roundtrip_in_range
      by (unfold year0_start, year10000_start, year9999_start in *; lia).
    unfold NewDateTimeFromTime, DateTime_Time.
    set (t0 := Now e 0%nat).
    pose proof (Z.div_mod t0 1000000000 ltac:(lia)) as Hdm.
    pose proof (Z.mod_pos_bound t0 1000000000 ltac:(lia)) as Hb.
    assert (Heq : (t0 - t0 mod 1000000000) / 1000000 = 1000 * (t0 / 1000000000)).
    { replace (t0 - t0 mod 1000000000) with (1000 * (t0 / 1000000000) * 1000000) by lia.
      apply Z.div_mul. lia. }
    rewrite Heq. split; [reflexivity | lia].
  - intros Hout.
    rewrite rfc3339_roundtrip_out_of_range
      by (unfold year0_start, year10000_start, year_minus1_start, year10001_start in *;
          lia).
    reflexivity.
Qed.

Lemma update_set_whole_seconds_witness :
  update_set healthy_env (decoded (body_of_title "buy bread")) =
    [("title", BString "buy bread"); ("updated_at", BDateTime 1700000000000)] /\
  update_set far_future_env (decoded (body_of_title "buy bread")) =
    [("title", BString "buy bread"); ("updated_at", BDateTime (-62135596800000))].
Proof.
  destruct (update_set_whole_seconds healthy_env (decoded (body_of_title "buy bread")))
    as (ms & Hset & Hin & _).
  destruct (update_set_whole_seconds far_future_env (decoded (body_of_title "buy bread")))
    as (ms' & Hset' & _ & Hout).
  rewrite Hset, Hset'.
  destruct Hin as [-> _]; [split; [discriminate | reflexivity] |].
  rewrite Hout by (right; discriminate).
  split; reflexivity.
Defined.

(** ** Requests in sequence *)

Lemma all_decode_insert (c : gmap N (gmap string bson)) (k : N) (d : gmap string bson) :
  all_decode c -> is_Some (unmarshal_todoModel k d) -> all_decode (<[ k := d ]> c).
Proof.
  intros Hc Hd k' d' H. destruct (decide (k = k')) as [<- | Hne].
  - rewrite lookup_insert_eq in H. injection H as <-. exact Hd.
  - rewrite lookup_insert_ne in H by exact Hne. exact (Hc k' d' H).
Qed.

Lemma all_decode_delete (c : gmap N (gmap string bson)) (k : N) :
  all_decode c -> all_decode (delete k c).
Proof.
  intros Hc k' d' H. apply lookup_delete_Some in H as [_ H]. exact (Hc k' d' H).
Qed.

(** X15.  A record that create has stored is in the next list: the list
    answers 200 with one entry more than there were records, among them the
    entry with the new identifier in hexadecimal form, the title of the
    body, not completed, and the creation times in whole milliseconds. *)
Theorem create_then_list (e1 e2 : env) (r1 r2 : Request) (w : world) :
  decode_err (ReqBody r1) = None ->
  Title (decoded (ReqBody r1)) <> "" ->
  insert_err e1 = None ->
  coll w !! NewObjectID e1 = None ->
  find_err e2 = None ->
  all_err e2 = None ->
  all_decode (coll w) ->
  let w1 := snd (createTodo e1 r1 w) in
  exists todos,
    fetchTodos e2 r2 w1 =
      (Returned tt,
       World (coll w1) (written w1 ++ [todo_list todos]) (calls w1 ++ [CFind])
         (logged w1)) /\
    length todos = S (size (coll w)) /\
    Todo (Hex (NewObjectID e1)) (Title (decoded (ReqBody r1))) false
      (trunc_ms (Now e1 0%nat)) (trunc_ms (Now e1 1%nat)) ∈ todos.
Proof.
  intros Hdec Htitle Hins Hfresh Hfind Hall Hc w1. subst w1.
  rewrite (createTodo_run e1 r1 w Hdec Htitle), Hins, Hfresh.
  cbn [snd coll written calls logged].
  set (m := new_todoModel e1 (decoded (ReqBody r1))).
  set (w1 := World _ _ _ _).
  assert (Hc1 : all_decode (coll w1)).
  { apply all_decode_insert; [exact Hc |]. eexists. apply (unmarshal_marshal m). }
  destruct (fetchTodos_listing e2 r2 w1 Hfind Hall Hc1) as (ms & Hrun & Hlen & Hin).
  exists (map todo_of_model ms). split; [exact Hrun |]. split.
  - rewrite length_map, Hlen. apply map_size_insert_None. exact Hfresh.
  - apply (list_elem_of_fmap_2 todo_of_model ms
             (TodoModel (NewObjectID e1) (Title (decoded (ReqBody r1))) false
                (trunc_ms (Now e1 0%nat)) (trunc_ms (Now e1 1%nat)))).
    apply Hin. exists (marshal_todoModel m).
    split; [apply lookup_insert_eq | apply (unmarshal_marshal m)].
Qed.

Lemma empty_world_decodes : all_decode (coll empty_world).
Proof. intros k d H. unfold empty_world, coll in H. rewrite lookup_empty in H. discriminate H. Qed.

Lemma create_then_list_witness :
  exists todos,
    written (snd (fetchTodos healthy_env (MkRequest "GET" "/todo" [] (body_of_title ""))
                    (snd (createTodo healthy_env
                            (MkRequest "POST" "/todo" [] (body_of_title "buy milk"))
                            empty_world)))) =
      [creation_successful sample_oid; todo_list todos] /\
    length todos = 1%nat /\
    Todo sample_id "buy milk" false 1700000000123000000 1700000000123000000 ∈ todos.
Proof.
  destruct (create_then_list healthy_env healthy_env
              (MkRequest "POST" "/todo" [] (body_of_title "buy milk"))
              (MkRequest "GET" "/todo" [] (body_of_title "")) empty_world)
    as (todos & Hrun & Hlen & Hin);
    [reflexivity | discriminate | reflexivity | reflexivity | reflexivity
    | reflexivity | exact empty_world_decodes |].
  exists todos. split; [rewrite Hrun; reflexivity |].
  split; [exact Hlen | exact Hin].
Defined.

(** X16.  After a delete that the backend carries out, the next list has
    no entry with the deleted identifier (the identifiers of the collection
    being twelve bytes long, as [ObjectID]s are). *)
Theorem delete_then_list
    (e1 e2 : env) (r1 r2 : Request) (w : world) (oid : ObjectID) :
  ObjectIDFromHex (request_id r1) = inl oid ->
  delete_err e1 = None ->
  find_err e2 = None ->
  all_err e2 = None ->
  all_decode (coll w) ->
  ids_bounded (coll w) ->
  let w1 := snd (deleteTodo e1 r1 w) in
  exists todos,
    fetchTodos e2 r2 w1 =
      (Returned tt,
       World (coll w1) (written w1 ++ [todo_list todos]) (calls w1 ++ [CFind])
         (logged w1)) /\
    (forall t, t ∈ todos -> ID t <> Hex oid).
Proof.
  intros Hid Hdel Hfind Hall Hc Hb w1. subst w1.
  rewrite (deleteTodo_run e1 r1 w oid Hid Hdel).
  cbn [snd coll written calls logged].
  set (w1 := World _ _ _ _).
  assert (Hc1 : all_decode (coll w1)) by (apply all_decode_delete; exact Hc).
  destruct (fetchTodos_listing e2 r2 w1 Hfind Hall Hc1) as (ms & Hrun & _ & Hin).
  exists (map todo_of_model ms). split; [exact Hrun |].
  intros t Ht. apply list_elem_of_fmap in Ht as (m & -> & Hm).
  apply Hin in Hm as (d & Hd & _). cbn [coll w1] in Hd.
  apply lookup_delete_Some in Hd as [Hne Hd].
  cbn [todo_of_model ID]. intros Heq. apply Hne. symmetry.
  apply Hex_inj; [exact (Hb _ _ Hd) | | exact Heq].
  apply (ObjectIDFromHex_inl _ oid Hid).
Qed.

Lemma sample_world_bounded : ids_bounded (coll sample_world).
Proof.
  intros k d H. unfold sample_world, coll in H.
  apply lookup_singleton_Some in H as [<- _]. reflexivity.
Qed.

Lemma delete_then_list_witness :
  written (snd (fetchTodos healthy_env (MkRequest "GET" "/todo" [] (body_of_title ""))
                  (snd (deleteTodo healthy_env
                          (id_request "DELETE" sample_id (body_of_title ""))
                          sample_world)))) =
  [deletion_successful sample_id 1; todo_list []].
Proof.
  destruct (delete_then_list healthy_env healthy_env
              (id_request "DELETE" sample_id (body_of_title ""))
              (MkRequest "GET" "/todo" [] (body_of_title "")) sample_world sample_oid)
    as (todos & Hrun & _);
    [reflexivity | reflexivity | reflexivity | reflexivity
    | exact sample_world_decodes | exact sample_world_bounded |].
  reflexivity.
Defined.

(** X17.  Create and then delete with the [todo_id] of the create's
    response: the delete is answered 200 with a count of one and the
    collection is again what it was before the create. *)
Theorem create_then_delete (e1 e2 : env) (r1 : Request) (b : Body) (w : world) :
  decode_err (ReqBody r1) = None ->
  Title (decoded (ReqBody r1)) <> "" ->
  insert_err e1 = None ->
  coll w !! NewObjectID e1 = None ->
  (NewObjectID e1 < ObjectID_bound)%N ->
  delete_err e2 = None ->
  let todo_id := Hex (NewObjectID e1) in
  let w1 := snd (createTodo e1 r1 w) in
  let w2 := snd (deleteTodo e2 (id_request "DELETE" todo_id b) w1) in
  written w2 =
    (written w
     ++ [creation_successful (NewObjectID e1); deletion_successful todo_id 1])%list /\
  coll w2 = coll w.
Proof.
  intros Hdec Htitle Hins Hfresh Hbound Hdel todo_id w1 w2. subst w2 w1 todo_id.
  rewrite (createTodo_run e1 r1 w Hdec Htitle), Hins, Hfresh.
  cbn [snd].
  destruct (request_id_Hex_raw (NewObjectID e1) "DELETE" b Hbound) as [Hrid Hid].
  rewrite (deleteTodo_run e2 _ _ (NewObjectID e1) Hid Hdel), Hrid.
  cbn [snd coll written]. rewrite lookup_insert_eq, <- app_assoc.
  split; [reflexivity | apply delete_insert_id; exact Hfresh].
Qed.

Lemma create_then_delete_witness :
  coll (snd (deleteTodo healthy_env (id_request "DELETE" sample_id (body_of_title ""))
               (snd (createTodo healthy_env
                       (MkRequest "POST" "/todo" [] (body_of_title "buy milk"))
                       empty_world)))) = ∅.
Proof.
  destruct (create_then_delete healthy_env healthy_env
              (MkRequest "POST" "/todo" [] (body_of_title "buy milk"))
              (body_of_title "") empty_world)
    as (_ & H);
    [reflexivity | discriminate | reflexivity | reflexivity | reflexivity
    | reflexivity |].
  exact H.
Defined.

(** X18.  Create and then update with the [todo_id] of the create's
    response: the record read back has the new title, but its [UpdatedAt]
    is still the one of the create.  The update writes its time under the
    key [updated_at], the record's [UpdatedAt] is stored under [updatedat],
    and the stored document now has both. *)
Theorem create_then_update (e1 e2 : env) (r1 : Request) (b : Body) (w : world) :
  decode_err (ReqBody r1) = None ->
  Title (decoded (ReqBody r1)) <> "" ->
  insert_err e1 = None ->
  coll w !! NewObjectID e1 = None ->
  (NewObjectID e1 < ObjectID_bound)%N ->
  update_err e2 = None ->
  let oid := NewObjectID e1 in
  let w1 := snd (createTodo e1 r1 w) in
  let w2 := snd (updateTodo e2 (id_request "PUT" (Hex oid) b) w1) in
  exists d,
    coll w2 !! oid = Some d /\
    unmarshal_todoModel oid d =
      Some (TodoModel oid (Title (decoded b)) false
              (trunc_ms (Now e1 0%nat)) (trunc_ms (Now e1 1%nat))) /\
    d !! "updatedat" = Some (BDateTime (NewDateTimeFromTime (Now e1 1%nat))) /\
    d !! "updated_at" =
      Some (BDateTime (NewDateTimeFromTime (rfc3339_roundtrip (Now e2 0%nat)))).
Proof.
  intros Hdec Htitle Hins Hfresh Hbound Hup oid w1 w2. subst w2 w1 oid.
  rewrite (createTodo_run e1 r1 w Hdec Htitle), Hins, Hfresh.
  cbn [snd].
  destruct (request_id_Hex_raw (NewObjectID e1) "PUT" b Hbound) as [_ Hid].
  rewrite (updateTodo_coll e2 _ _ (NewObjectID e1) Hid Hup).
  cbn [coll ReqBody id_request]. rewrite !lookup_insert_eq. cbn [default].
  eexists. split; [reflexivity |].
  rewrite apply_set_update_set. repeat split; reflexivity.
Qed.

Lemma create_then_update_witness :
  exists d,
    coll (snd (updateTodo healthy_env
                 (id_request "PUT" sample_id (body_of_title "buy bread"))
                 (snd (createTodo healthy_env
                         (MkRequest "POST" "/todo" [] (body_of_title "buy milk"))
                         empty_world)))) !! sample_oid = Some d /\
    unmarshal_todoModel sample_oid d =
      Some (TodoModel sample_oid "buy bread" false
              1700000000123000000 1700000000123000000) /\
    d !! "updated_at" = Some (BDateTime 1700000000000).
Proof.
  destruct (create_then_update healthy_env healthy_env
              (MkRequest "POST" "/todo" [] (body_of_title "buy milk"))
              (body_of_title "buy bread") empty_world)
    as (d & Hd & Hm & _ & Hu);
    [reflexivity | discriminate | reflexivity | reflexivity | reflexivity
    | reflexivity |].
  exists d. split; [exact Hd |]. split; [exact Hm | exact Hu].
Defined.

(** ** Every request through the server *)

Ltac footprint_with cs rs :=
  apply (Footprint _ _ _ cs rs);
  [ cbn; rewrite ?app_nil_r, <- ?app_assoc; reflexivity
  | cbn; rewrite ?app_nil_r, <- ?app_assoc; reflexivity
  | cbn; lia | cbn; lia
  | intros Hret; cbn; first [lia | discriminate Hret]
  | reflexivity ].

Lemma homeHandler_footprint (e : env) (r : Request) (w : world) :
  footprint w (snd (homeHandler e r w)) (fst (homeHandler e r w)) /\
  coll (snd (homeHandler e r w)) = coll w.
Proof.
  unfold homeHandler, Template, checkErr, go_panic. run_monad.
  destruct (template_parse_err e); simpl;
    [| destruct (template_err e); simpl ]; (split; [| reflexivity]);
    footprint_with (@nil call) [Response StatusOK (PTemplate ["./static/home.html"])].
Qed.

Lemma fetchTodos_footprint (e : env) (r : Request) (w : world) :
  footprint w (snd (fetchTodos e r w)) (fst (fetchTodos e r w)) /\
  coll (snd (fetchTodos e r w)) = coll w.
Proof.
  run fetchTodos. destruct (find_err e) as [err |]; simpl.
  - split; [| reflexivity].
    footprint_with [CFind]
      [Response StatusInternalServerError
         (PMap [("message", JString "Failed to fetch todo"); ("error", JError err)])].
  - destruct (All e (map_to_list (coll w))) as [ms | err]; simpl;
      (split; [| reflexivity]).
    + footprint_with [CFind] [todo_list (map todo_of_model ms)].
    + footprint_with [CFind] (@nil response).
Qed.

Lemma createTodo_footprint (e : env) (r : Request) (w : world) :
  footprint w (snd (createTodo e r w)) (fst (createTodo e r w)) /\
  coll_step e (coll w) (coll (snd (createTodo e r w))).
Proof.
  run createTodo.
  destruct (decode_err (ReqBody r)) as [err |]; simpl.
  { split; [footprint_with (@nil call) [Response StatusBadRequest (PErr err)]
           | apply step_same]. }
  destruct (String.eqb (Title (decoded (ReqBody r))) ""); simpl.
  { split; [footprint_with (@nil call) [title_required] | apply step_same]. }
  set (m := TodoModel _ _ _ _ _).
  destruct (insert_err e) as [err |]; simpl.
  { split; [footprint_with [CInsertOne (NewObjectID e) (marshal_todoModel m)]
              [creation_failed err]
           | apply step_same]. }
  destruct (coll w !! NewObjectID e) eqn:Hfresh; simpl.
  { split; [footprint_with [CInsertOne (NewObjectID e) (marshal_todoModel m)]
              [creation_failed "E11000 duplicate key error"]
           | apply step_same]. }
  split; [footprint_with [CInsertOne (NewObjectID e) (marshal_todoModel m)]
            [creation_successful (NewObjectID e)]
         | apply (step_insert e (coll w) m Hfresh); reflexivity].
Qed.

Lemma deleteTodo_footprint (e : env) (r : Request) (w : world) :
  footprint w (snd (deleteTodo e r w)) (fst (deleteTodo e r w)) /\
  coll_step e (coll w) (coll (snd (deleteTodo e r w))).
Proof.
  run deleteTodo.
  destruct (ObjectIDFromHex (TrimSpace (URLParam r "id"))) as [oid | err] eqn:Hid; simpl.
  - destruct (delete_err e) as [err |]; simpl.
    { split; [footprint_with [CDeleteOne oid] [deletion_failed err] | apply step_same]. }
    destruct (coll w !! oid); simpl.
    + split; [footprint_with [CDeleteOne oid]
                [deletion_successful (TrimSpace (URLParam r "id")) 1]
             | apply (step_delete e (coll w) _ oid Hid)].
    + split; [footprint_with [CDeleteOne oid]
                [deletion_successful (TrimSpace (URLParam r "id")) 0]
             | apply step_same].
  - split; [footprint_with (@nil call) (@nil response) | apply step_same].
Qed.

Lemma updateTodo_footprint (e : env) (r : Request) (w : world) :
  footprint w (snd (updateTodo e r w)) (fst (updateTodo e r w)) /\
  coll_step e (coll w) (coll (snd (updateTodo e r w))).
Proof.
  run updateTodo.
  destruct (ObjectIDFromHex (TrimSpace (URLParam r "id"))) as [oid | err] eqn:Hid; simpl.
  2: { split; [footprint_with (@nil call) [parse_failure err] | apply step_same]. }
  rewrite update_guard.
  set (set := [("title", _); ("updated_at", _)]).
  assert (Hstep : coll_step e (coll w)
            (<[ oid := apply_set set (default ∅ (coll w !! oid)) ]> (coll w)))
    by exact (step_update e (coll w) _ oid (decoded (ReqBody r)) Hid).
  destruct (decode_err (ReqBody r)); simpl;
    (destruct (update_err e) as [err |]; simpl;
     [ split; [| apply step_same]
     | destruct (coll w !! oid) eqn:Hd; simpl; (split; [| exact Hstep]) ]).
  - footprint_with [CUpdateOne oid set true] [bad_request; update_failed err].
  - eapply (Footprint _ _ _ [CUpdateOne oid set true] [bad_request; _]);
      [cbn; rewrite <- ?app_assoc; reflexivity | cbn; rewrite <- ?app_assoc; reflexivity
      | cbn; lia | cbn; lia | intros _; cbn; lia | reflexivity].
  - eapply (Footprint _ _ _ [CUpdateOne oid set true] [bad_request; _]);
      [cbn; rewrite <- ?app_assoc; reflexivity | cbn; rewrite <- ?app_assoc; reflexivity
      | cbn; lia | cbn; lia | intros _; cbn; lia | reflexivity].
  - footprint_with [CUpdateOne oid set true] [update_failed err].
  - eapply (Footprint _ _ _ [CUpdateOne oid set true] [_]);
      [cbn; reflexivity | cbn; reflexivity
      | cbn; lia | cbn; lia | intros _; cbn; lia | reflexivity].
  - eapply (Footprint _ _ _ [CUpdateOne oid set true] [_]);
      [cbn; reflexivity | cbn; reflexivity
      | cbn; lia | cbn; lia | intros _; cbn; lia | reflexivity].
Qed.

Lemma ServeHTTP_summary (e : env) (r : Request) (w : world) :
  footprint w (snd (ServeHTTP e r w)) (fst (ServeHTTP e r w)) /\
  coll_step e (coll w) (coll (snd (ServeHTTP e r w))).
Proof.
  unfold ServeHTTP.
  destruct (router todoHandlers (Method r) (Path r)) as [h ps | |].
  - destruct h; cbn [run_handler].
    + destruct (homeHandler_footprint e (MkRequest (Method r) (Path r) ps (ReqBody r)) w)
        as [Hf Hc].
      split; [exact Hf | rewrite Hc; apply step_same].
    + destruct (fetchTodos_footprint e (MkRequest (Method r) (Path r) ps (ReqBody r)) w)
        as [Hf Hc].
      split; [exact Hf | rewrite Hc; apply step_same].
    + apply createTodo_footprint.
    + apply updateTodo_footprint.
    + apply deleteTodo_footprint.
  - run_monad. split; [| apply step_same].
    footprint_with (@nil call) [Response StatusNotFound (PText not_found_text)].
  - run_monad. split; [| apply step_same].
    footprint_with (@nil call) [Response StatusMethodNotAllowed (PText "")].
Qed.

Lemma coll_step_frame (e : env) (c c' : gmap N (gmap string bson)) :
  coll_step e c c' -> exists k, forall k', k' <> k -> c' !! k' = c !! k'.
Proof.
  intros [| m _ _ | s oid t _ | s oid _].
  - exists 0%N. reflexivity.
  - exists (NewObjectID e). intros k' Hk. apply lookup_insert_ne. congruence.
  - exists oid. intros k' Hk. apply lookup_insert_ne. congruence.
  - exists oid. intros k' Hk. apply lookup_delete_ne. congruence.
Qed.

Lemma coll_step_decode (e : env) (c c' : gmap N (gmap string bson)) :
  coll_step e c c' -> all_decode c -> all_decode c'.
Proof.
  intros [| m _ Hm | s oid t _ | s oid _] Hc.
  - exact Hc.
  - apply all_decode_insert; [exact Hc |]. rewrite <- Hm. eexists.
    apply unmarshal_marshal.
  - apply all_decode_insert; [exact Hc |]. rewrite apply_set_update_set.
    destruct (c !! oid) as [d |] eqn:Hd; cbn [default].
    + destruct (Hc oid d Hd) as [m Hm].
      destruct (unmarshal_after_update oid d (Title t)
                  (NewDateTimeFromTime (rfc3339_roundtrip (Now e 0%nat))) m Hm)
        as (m' & Hm' & _).
      eexists. exact Hm'.
    + eexists. reflexivity.
  - apply all_decode_delete. exact Hc.
Qed.

Lemma coll_step_bounded (e : env) (c c' : gmap N (gmap string bson)) :
  coll_step e c c' -> (NewObjectID e < ObjectID_bound)%N ->
  ids_bounded c -> ids_bounded c'.
Proof.
  intros [| m _ _ | s oid t Hs | s oid _] Hnew Hc k d H.
  - exact (Hc k d H).
  - destruct (decide (NewObjectID e = k)) as [<- | Hne]; [exact Hnew |].
    rewrite lookup_insert_ne in H by exact Hne. exact (Hc k d H).
  - destruct (decide (oid = k)) as [<- | Hne];
      [apply (ObjectIDFromHex_inl s oid Hs) |].
    rewrite lookup_insert_ne in H by exact Hne. exact (Hc k d H).
  - apply lookup_delete_Some in H as [_ H]. exact (Hc k d H).
Qed.

(** X19.  Whatever the request and whatever the backend does, the server
    issues at most one storage call for it and writes at most two responses,
    each with one of the status codes 200, 201, 400, 404, 405 and 500; and
    when the handler returns (it neither panics nor ends the process) at
    least one response has been written. *)
Theorem ServeHTTP_footprint (e : env) (r : Request) (w : world) :
  exists (new_calls : list call) (new_responses : list response),
    calls (snd (ServeHTTP e r w)) = (calls w ++ new_calls)%list /\
    written (snd (ServeHTTP e r w)) = (written w ++ new_responses)%list /\
    (length new_calls <= 1)%nat /\
    (length new_responses <= 2)%nat /\
    (fst (ServeHTTP e r w) = Returned tt -> (1 <= length new_responses)%nat) /\
    forallb (fun r => known_status (status r)) new_responses = true.
Proof.
  destruct (ServeHTTP_summary e r w) as [[cs rs Hc Hw H1 H2 Hret Hst] _].
  exists cs, rs. repeat split; assumption.
Qed.

(** X20.  One request changes at most one record: there is an identifier
    such that the record of every other identifier is after the request
    what it was before. *)
Theorem ServeHTTP_one_record (e : env) (r : Request) (w : world) :
  exists k, forall k', k' <> k ->
    coll (snd (ServeHTTP e r w)) !! k' = coll w !! k'.
Proof. apply (coll_step_frame e), ServeHTTP_summary. Qed.

Lemma serve_invariant (P : gmap N (gmap string bson) -> Prop) (reqs : list (env * Request)) :
  (forall e r w, In (e, r) reqs -> P (coll w) -> P (coll (snd (ServeHTTP e r w)))) ->
  forall w, P (coll w) -> P (coll (snd (serve reqs w))).
Proof.
  induction reqs as [| [e r] reqs IH]; intros Hstep w Hw; [exact Hw |].
  cbn [serve].
  pose proof (Hstep e r w (or_introl eq_refl) Hw) as Hw'.
  destruct (ServeHTTP e r w) as [[[] | v | code] w']; cbn [snd] in *;
    try exact Hw'; apply IH; try exact Hw';
    intros e' r' w'' Hin; apply Hstep; right; exact Hin.
Qed.

(** X21.  The server keeps the collection readable: if every stored
    document reads back as a record before a sequence of requests, so it
    does after it, whatever the requests and the backend's failures; and
    the identifiers stay twelve bytes long as long as the fresh ones
    are. *)
Theorem serve_keeps_collection_readable (reqs : list (env * Request)) (w : world) :
  (all_decode (coll w) -> all_decode (coll (snd (serve reqs w)))) /\
  ((forall e r, In (e, r) reqs -> (NewObjectID e < ObjectID_bound)%N) ->
   ids_bounded (coll w) -> ids_bounded (coll (snd (serve reqs w)))).
Proof.
  split.
  - apply (serve_invariant all_decode). intros e r w0 _.
    apply (coll_step_decode e), ServeHTTP_summary.
  - intros Hnew. apply (serve_invariant ids_bounded). intros e r w0 Hin.
    apply (coll_step_bounded e); [apply ServeHTTP_summary | exact (Hnew e r Hin)].
Qed.

Lemma serve_keeps_collection_readable_witness :
  all_decode (coll (snd (serve sample_requests empty_world))).
Proof.
  apply (proj1 (serve_keeps_collection_readable sample_requests empty_world)).
  exact empty_world_decodes.
Defined.

(** X22.  Started on an empty collection, after any sequence of requests
    that did not end the process, a list on a backend that answers the
    query is answered 200 with as many entries as there are records: the
    handlers never store a document that list cannot read. *)
Theorem list_after_any_requests (reqs : list (env * Request)) (e : env) (r : Request) :
  find_err e = None ->
  all_err e = None ->
  let w := snd (serve reqs empty_world) in
  exists todos,
    fetchTodos e r w =
      (Returned tt,
       World (coll w) (written w ++ [todo_list todos]) (calls w ++ [CFind]) (logged w)) /\
    length todos = size (coll w).
Proof.
  intros Hfind Hall w.
  assert (Hc : all_decode (coll w)).
  { apply (serve_invariant all_decode); [| exact empty_world_decodes].
    intros e' r' w0 _. apply (coll_step_decode e'), ServeHTTP_summary. }
  destruct (fetchTodos_listing e r w Hfind Hall Hc) as (ms & Hrun & Hlen & _).
  exists (map todo_of_model ms). split; [exact Hrun |].
  rewrite length_map. exact Hlen.
Qed.

Lemma list_after_any_requests_witness :
  exists todos : list todo,
    fst (fetchTodos healthy_env (MkRequest "GET" "/todo" [] (body_of_title ""))
           (snd (serve sample_requests empty_world))) = Returned tt /\
    length todos = size (coll (snd (serve sample_requests empty_world))).
Proof.
  destruct (list_after_any_requests sample_requests healthy_env
              (MkRequest "GET" "/todo" [] (body_of_title "")))
    as (todos & Hrun & Hlen); [reflexivity | reflexivity |].
  exists todos. split; [rewrite Hrun; reflexivity | exact Hlen].
Defined.

(** ** What the router accepts *)

Lemma segment_spec (s : string) :
  forall v rest, segment s = (v, rest) ->
    s = (v ++ rest)%string /\ no_slash v = true /\ (rest = EmptyString -> v = s).
Proof.
  induction s as [| c s IH]; intros v rest H; simpl in H.
  - injection H as <- <-. repeat split.
  - destruct (Ascii.eqb c "/") eqn:Hc.
    + injection H as <- <-. repeat split. discriminate.
    + destruct (segment s) as [v' rest'] eqn:Hs. injection H as <- <-.
      destruct (IH v' rest' eq_refl) as (Heq & Hns & Hrest).
      split; [rewrite append_cons, <- Heq; reflexivity |].
      split; [simpl; rewrite Hc, Hns; reflexivity |].
      intros Hr. rewrite (Hrest Hr). reflexivity.
Qed.

Lemma match_root_inv (p : string) (ps : list (string * string)) :
  match_pattern (parse_pattern "/" None) p = Some ps -> p = "/" /\ ps = [].
Proof.
  cbn [parse_pattern Ascii.eqb Bool.eqb]. cbn [match_pattern].
  destruct p as [| c rest]; [discriminate |].
  destruct (Ascii.eqb_spec "/" c) as [<- |]; [| discriminate].
  destruct (String.eqb_spec rest "") as [-> |]; [| discriminate].
  intros H. injection H as <-. split; reflexivity.
Qed.

Lemma match_param_inv (p : string) (ps : list (string * string)) :
  match_pattern (parse_pattern "/{id}" None) p = Some ps ->
  exists id, p = String "/" id /\ ps = [("id", id)] /\ id <> "" /\ no_slash id = true.
Proof.
  change (parse_pattern "/{id}" None) with [PChar "/"; PParam "id"].
  cbn [match_pattern].
  destruct p as [| c rest]; [discriminate |].
  destruct (Ascii.eqb_spec "/" c) as [<- |]; [| discriminate].
  destruct (segment rest) as [v rest'] eqn:Hs.
  destruct (String.eqb_spec v "") as [| Hv]; [discriminate |].
  destruct (String.eqb_spec rest' "") as [-> |]; [| discriminate].
  intros H. injection H as <-.
  destruct (segment_spec rest v "" Hs) as (_ & Hns & Hrest).
  rewrite <- (Hrest eq_refl). exists v. repeat split; assumption.
Qed.

Lemma strip_prefix_spec (pre : string) :
  forall s rest, strip_prefix pre s = Some rest -> s = (pre ++ rest)%string.
Proof.
  induction pre as [| c pre IH]; intros s rest H; simpl in H.
  - injection H as <-. reflexivity.
  - destruct s as [| c' s]; [discriminate |].
    destruct (Ascii.eqb_spec c c') as [<- |]; [| discriminate].
    rewrite append_cons, <- (IH s rest H). reflexivity.
Qed.

Lemma find_route_todo_inv (method sub : string) (h : handler) (ps : list (string * string)) :
  find_route todoHandlers method sub false = Found h ps ->
  match h with
  | H_homeHandler => False
  | H_fetchTodos => method = "GET" /\ sub = "/" /\ ps = []
  | H_createTodo => method = "POST" /\ sub = "/" /\ ps = []
  | H_updateTodo =>
      method = "PUT" /\
      exists id, sub = String "/" id /\ ps = [("id", id)] /\ id <> "" /\ no_slash id = true
  | H_deleteTodo =>
      method = "DELETE" /\
      exists id, sub = String "/" id /\ ps = [("id", id)] /\ id <> "" /\ no_slash id = true
  end.
Proof.
  unfold todoHandlers, Get, Post, Put, Delete, find_route, route_pattern,
    route_method, route_handler.
  destruct (match_pattern (parse_pattern "/" None) sub) as [ps1 |] eqn:H1.
  - apply match_root_inv in H1 as [-> ->].
    change (match_pattern (parse_pattern "/{id}" None) "/") with (@None (list (string * string))).
    cbv beta iota.
    destruct (String.eqb_spec "GET" method) as [<- | _].
    { intros H. injection H as <- <-. repeat split. }
    destruct (String.eqb_spec "POST" method) as [<- | _].
    { intros H. injection H as <- <-. repeat split. }
    discriminate.
  - destruct (match_pattern (parse_pattern "/{id}" None) sub) as [ps2 |] eqn:H2;
      [| discriminate].
    destruct (String.eqb_spec "PUT" method) as [<- | _].
    { intros H. injection H as <- <-. split; [reflexivity |].
      apply match_param_inv. exact H2. }
    destruct (String.eqb_spec "DELETE" method) as [<- | _].
    { intros H. injection H as <- <-. split; [reflexivity |].
      apply match_param_inv. exact H2. }
    discriminate.
Qed.

(** X23.  The router hands a request to a handler only on the method and
    path of its route: the home page on GET [/]; list and create on GET and
    POST of [/todo] or [/todo/]; update and delete on PUT and DELETE of
    [/todo/] followed by one non-empty segment without [/], which is the
    [id] the handler receives. *)
Theorem router_accepts (method path : string) (h : handler) (ps : list (string * string)) :
  router todoHandlers method path = Found h ps ->
  match h with
  | H_homeHandler => method = "GET" /\ path = "/" /\ ps = []
  | H_fetchTodos => method = "GET" /\ (path = "/todo" \/ path = "/todo/") /\ ps = []
  | H_createTodo => method = "POST" /\ (path = "/todo" \/ path = "/todo/") /\ ps = []
  | H_updateTodo =>
      method = "PUT" /\
      exists id, path = ("/todo/" ++ id)%string /\ ps = [("id", id)] /\
                 id <> "" /\ no_slash id = true
  | H_deleteTodo =>
      method = "DELETE" /\
      exists id, path = ("/todo/" ++ id)%string /\ ps = [("id", id)] /\
                 id <> "" /\ no_slash id = true
  end.
Proof.
  unfold router. destruct (known_method method); [| discriminate].
  cbn [find_route]. unfold Get.
  cbn [route_pattern route_method route_handler].
  destruct (match_pattern (parse_pattern "/" None) path) as [ps0 |] eqn:H0.
  - apply match_root_inv in H0 as [-> ->].
    destruct (String.eqb_spec "GET" method) as [<- |]; cbv beta iota;
      [| discriminate].
    intros H. injection H as <- <-. repeat split.
  - cbv beta iota. unfold mount_path.
    destruct (strip_prefix "/todo" path) as [rest |] eqn:Hp; [| discriminate].
    apply strip_prefix_spec in Hp as ->.
    destruct rest as [| c rest].
    + intros H. apply find_route_todo_inv in H.
      destruct h; try contradiction.
      * destruct H as (-> & _ & ->). repeat split. left. reflexivity.
      * destruct H as (-> & _ & ->). repeat split. left. reflexivity.
      * destruct H as (_ & id & Hsub & _ & Hne & _). injection Hsub as <-. congruence.
      * destruct H as (_ & id & Hsub & _ & Hne & _). injection Hsub as <-. congruence.
    + destruct (Ascii.eqb_spec c "/") as [-> |]; [| discriminate].
      intros H. apply find_route_todo_inv in H.
      destruct h; try contradiction.
      * destruct H as (-> & Hsub & ->). injection Hsub as ->. repeat split.
        right. reflexivity.
      * destruct H as (-> & Hsub & ->). injection Hsub as ->. repeat split.
        right. reflexivity.
      * destruct H as (-> & id & Hsub & -> & Hne & Hns). injection Hsub as ->.
        split; [reflexivity |]. exists id. repeat split; assumption.
      * destruct H as (-> & id & Hsub & -> & Hne & Hns). injection Hsub as ->.
        split; [reflexivity |]. exists id. repeat split; assumption.
Qed.


Lemma router_accepts_witness :
  exists id, ("/todo/" ++ sample_id)%string = ("/todo/" ++ id)%string /\
             [("id", sample_id)] = [("id", id)] /\ id <> "" /\ no_slash id = true.
Proof.
  exact (proj2 (router_accepts "DELETE" ("/todo/" ++ sample_id) H_deleteTodo
                  [("id", sample_id)] eq_refl)).
Defined.

Lemma find_route_deep (method rest : string) :
  no_slash rest = false ->
  find_route todoHandlers method (String "/" rest) false = NotFound.
Proof.
  intros Hns.
  unfold todoHandlers, Get, Post, Put, Delete, find_route, route_pattern,
    route_method, route_handler.
  destruct (match_pattern (parse_pattern "/" None) (String "/" rest)) as [ps1 |] eqn:H1.
  { apply match_root_inv in H1 as [H1 _]. injection H1 as ->. discriminate Hns. }
  destruct (match_pattern (parse_pattern "/{id}" None) (String "/" rest)) as [ps2 |] eqn:H2;
    [| reflexivity].
  apply match_param_inv in H2 as (id & Heq & _ & _ & Hid).
  injection Heq as ->. congruence.
Qed.

(** X24.  A path with more than one segment below [/todo] has no route:
    for each of the methods chi routes the server answers 404 with the line
    "404 page not found" and its end of line, for any other method 405 with
    an empty body; in both cases it issues no storage call and leaves the
    collection as it is. *)
Theorem ServeHTTP_deep_path
    (e : env) (method rest : string) (ps : list (string * string)) (b : Body) (w : world) :
  no_slash rest = false ->
  ServeHTTP e (MkRequest method ("/todo/" ++ rest) ps b) w =
    (Returned tt,
     World (coll w)
       (written w
        ++ [if known_method method
            then Response StatusNotFound (PText not_found_text)
            else Response StatusMethodNotAllowed (PText "")])
       (calls w) (logged w)).
Proof.
  intros Hns. unfold ServeHTTP, router. cbn [Method Path].
  rewrite home_not_todo, mount_todo_id.
  change ("/" ++ rest)%string with (String "/" rest).
  rewrite (find_route_deep method rest Hns).
  destruct (known_method method); reflexivity.
Qed.

Lemma ServeHTTP_deep_path_witness :
  ServeHTTP healthy_env
    (MkRequest "DELETE" ("/todo/" ++ sample_id ++ "/x") [] (body_of_title ""))
    sample_world =
  (Returned tt,
   World (coll sample_world)
     [Response 404 (PText ("404 page not found" ++ String (ascii_of_N 10) EmptyString))]
     [] []) /\
  ServeHTTP healthy_env
    (MkRequest "BREW" ("/todo/" ++ sample_id ++ "/x") [] (body_of_title ""))
    sample_world =
  (Returned tt, World (coll sample_world) [Response 405 (PText "")] [] []).
Proof.
  split.
  - apply (ServeHTTP_deep_path healthy_env "DELETE" (sample_id ++ "/x") []
             (body_of_title "") sample_world).
    reflexivity.
  - apply (ServeHTTP_deep_path healthy_env "BREW" (sample_id ++ "/x") []
             (body_of_title "") sample_world).
    reflexivity.
Defined.

(** ** What update and delete read, and what update reports *)

Lemma updateTodo_run (e : env) (r : Request) (w : world) (oid : ObjectID) :
  ObjectIDFromHex (request_id r) = inl oid ->
  update_err e = None ->
  let set := update_set e (decoded (ReqBody r)) in
  updateTodo e r w =
    (Returned tt,
     World (<[ oid := apply_set set (default ∅ (coll w !! oid)) ]> (coll w))
       ((written w
         ++ match decode_err (ReqBody r) with
            | Some _ => [bad_request]
            | None => []
            end)
        ++ [update_successful (request_id r) (update_result oid set (coll w !! oid))])
       (calls w ++ [CUpdateOne oid set true])
       (logged w ++ [request_id r])).
Proof.
  intros Hid Hup set. subst set. run updateTodo. rewrite Hid, Hup, update_guard.
  destruct (decode_err (ReqBody r)); simpl;
    destruct (coll w !! oid); simpl; rewrite ?app_nil_r; reflexivity.
Qed.

(** X25.  Update reads of the request the [id] parameter, the decoded
    title and whether the body decoded; delete reads the [id] parameter
    only.  Two requests that agree on these have the same effect: a
    completion flag, an identifier or times sent in the body change
    nothing. *)
Theorem update_delete_inputs (e : env) (r1 r2 : Request) (w : world) :
  URLParam r1 "id" = URLParam r2 "id" ->
  (Title (decoded (ReqBody r1)) = Title (decoded (ReqBody r2)) ->
   (decode_err (ReqBody r1) = None <-> decode_err (ReqBody r2) = None) ->
   updateTodo e r1 w = updateTodo e r2 w) /\
  deleteTodo e r1 w = deleteTodo e r2 w.
Proof.
  intros Hid. split.
  - intros Ht Hd. run updateTodo. rewrite Hid, Ht.
    destruct (decode_err (ReqBody r1)), (decode_err (ReqBody r2));
      try reflexivity.
    + destruct Hd as [_ Hd]. discriminate (Hd eq_refl).
    + destruct Hd as [Hd _]. discriminate (Hd eq_refl).
  - run deleteTodo. rewrite Hid. reflexivity.
Qed.

Lemma update_delete_inputs_witness :
  updateTodo healthy_env
    (id_request "PUT" sample_id (MkBody (Todo "ffffffffffffffffffffffff" "buy bread" false 1 2) None))
    sample_world =
  updateTodo healthy_env (id_request "PUT" sample_id (body_of_title "buy bread"))
    sample_world.
Proof.
  apply (proj1 (update_delete_inputs healthy_env
                  (id_request "PUT" sample_id
                     (MkBody (Todo "ffffffffffffffffffffffff" "buy bread" false 1 2) None))
                  (id_request "PUT" sample_id (body_of_title "buy bread"))
                  sample_world eq_refl)).
  - reflexivity.
  - split; reflexivity.
Defined.

(** X26.  The result in the response of a successful update tells an
    update from an upsert: when no record had the identifier it reports one
    upserted document with this identifier and no match; when a record had
    it, it reports one match, nothing upserted, and a modified count that
    is zero exactly when the record already had this title and this
    [updated_at]. *)
Theorem updateTodo_result (e : env) (r : Request) (w : world) (oid : ObjectID) :
  ObjectIDFromHex (request_id r) = inl oid ->
  decode_err (ReqBody r) = None ->
  update_err e = None ->
  exists res,
    written (snd (updateTodo e r w)) =
      (written w ++ [update_successful (request_id r) res])%list /\
    (coll w !! oid = None -> res = MkUpdateResult 0 0 1 (Some oid)) /\
    (forall d, coll w !! oid = Some d ->
       MatchedCount res = 1 /\ UpsertedCount res = 0 /\ UpsertedID res = None /\
       (ModifiedCount res = 0 \/ ModifiedCount res = 1) /\
       (ModifiedCount res = 0 <->
        d !! "title" = Some (BString (Title (decoded (ReqBody r)))) /\
        d !! "updated_at" =
          Some (BDateTime (NewDateTimeFromTime (rfc3339_roundtrip (Now e 0%nat)))))).
Proof.
  intros Hid Hdec Hup. rewrite (updateTodo_run e r w oid Hid Hup), Hdec.
  cbn [snd written]. rewrite app_nil_r.
  eexists. split; [reflexivity |]. split.
  - intros ->. reflexivity.
  - intros d ->. cbn [update_result MatchedCount UpsertedCount UpsertedID ModifiedCount].
    rewrite apply_set_update_set.
    split; [reflexivity |]. split; [reflexivity |]. split; [reflexivity |].
    destruct (decide (_ = d)) as [Heq | Hne].
    + split; [left; reflexivity |]. split; [| reflexivity]. intros _.
      split; rewrite <- Heq.
      * rewrite lookup_insert_ne by discriminate. apply lookup_insert_eq.
      * apply lookup_insert_eq.
    + split; [right; reflexivity |]. split; [discriminate |].
      intros [Ht Hu]. exfalso. apply Hne.
      rewrite (insert_id d "title" _ Ht). apply insert_id. exact Hu.
Qed.

Lemma updateTodo_result_witness :
  written (snd (updateTodo healthy_env
                  (id_request "PUT" sample_id (body_of_title "buy bread")) empty_world)) =
  [update_successful sample_id (MkUpdateResult 0 0 1 (Some sample_oid))].
Proof.
  destruct (updateTodo_result healthy_env
              (id_request "PUT" sample_id (body_of_title "buy bread")) empty_world
              sample_oid) as (res & Hw & Hnone & _);
    [reflexivity | reflexivity | reflexivity |].
  rewrite Hw, (Hnone eq_refl). reflexivity.
Defined.
